(** * Forecasting and metrics engine: a shallow embedding

    Embeds [app/model_utils.py] (class [ModelTrainer]), the two routes of
    [app/app.py] that consume it ([compare], [download_forecast]) and the
    feature derivation of [app/data_loader.py] ([clean_data]).

    Conventions of the model.
    - A Python/numpy float is an [fval]: a rational, one of the two
      infinities, or NaN.  Arithmetic on finite values is exact (no rounding,
      no overflow, no signed zero); the IEEE special cases (division by zero,
      [inf - inf], NaN propagation) are written out.
    - Numeric equality of floats is [feq] ([Qeq] on finite values).
    - [try ... except Exception] is [try_except] in a state-and-exception
      monad whose state is the [ModelTrainer] instance.
    - The modelling libraries (pmdarima, statsmodels, Keras, the fit of
      sklearn's MinMaxScaler, numpy's square root) are parameters of the
      development: functions that return a value or raise. *)

From Stdlib Require Import String Ascii QArith ZArith Bool Arith List Lia Lqa.
From Stdlib Require Import Qabs Qround.
Import ListNotations.

Set Implicit Arguments.

(* ================================================================== *)
(** ** Floats *)

Inductive fval : Type :=
| Fin (q : Q)
| PInf
| NInf
| NaN.

Definition fzero : fval := Fin 0%Q.
Definition of_nat (n : nat) : fval := Fin (inject_Z (Z.of_nat n)).

Definition fneg (x : fval) : fval :=
  match x with
  | Fin q => Fin (- q)%Q
  | PInf => NInf
  | NInf => PInf
  | NaN => NaN
  end.

Definition fadd (x y : fval) : fval :=
  match x, y with
  | NaN, _ | _, NaN => NaN
  | PInf, NInf | NInf, PInf => NaN
  | PInf, _ | _, PInf => PInf
  | NInf, _ | _, NInf => NInf
  | Fin a, Fin b => Fin (a + b)%Q
  end.

Definition fsub (x y : fval) : fval := fadd x (fneg y).

Definition fmul (x y : fval) : fval :=
  match x, y with
  | NaN, _ | _, NaN => NaN
  | Fin a, Fin b => Fin (a * b)%Q
  | Fin a, PInf | PInf, Fin a =>
      match (a ?= 0)%Q with Eq => NaN | Gt => PInf | Lt => NInf end
  | Fin a, NInf | NInf, Fin a =>
      match (a ?= 0)%Q with Eq => NaN | Gt => NInf | Lt => PInf end
  | PInf, PInf | NInf, NInf => PInf
  | PInf, NInf | NInf, PInf => NInf
  end.

Definition fdiv (x y : fval) : fval :=
  match x, y with
  | NaN, _ | _, NaN => NaN
  | Fin a, Fin b =>
      match (b ?= 0)%Q with
      | Eq => match (a ?= 0)%Q with Eq => NaN | Gt => PInf | Lt => NInf end
      | _ => Fin (a / b)%Q
      end
  | Fin _, PInf | Fin _, NInf => Fin 0%Q
  | PInf, Fin b => match (b ?= 0)%Q with Lt => NInf | _ => PInf end
  | NInf, Fin b => match (b ?= 0)%Q with Lt => PInf | _ => NInf end
  | _, _ => NaN
  end.

Definition fabs (x : fval) : fval :=
  match x with
  | Fin q => Fin (Qabs q)
  | PInf | NInf => PInf
  | NaN => NaN
  end.

(** Python's [x < y] on floats: false as soon as one side is NaN. *)
Definition flt (x y : fval) : bool :=
  match x, y with
  | Fin a, Fin b => match (a ?= b)%Q with Lt => true | _ => false end
  | NInf, Fin _ | NInf, PInf | Fin _, PInf => true
  | _, _ => false
  end.


(** [x == 0] *)
Definition fis_zero (x : fval) : bool :=
  match x with Fin q => Qeq_bool q 0%Q | _ => false end.

Definition is_finite (x : fval) : bool :=
  match x with Fin _ => true | _ => false end.

(** infinite or NaN: what the spec calls an undefined result *)
Definition is_undefined (x : fval) : bool := negb (is_finite x).

Definition is_nan (x : fval) : bool :=
  match x with NaN => true | _ => false end.

(** Same number (the model's identity of floats, not Python's [==]). *)
Definition feq (x y : fval) : Prop :=
  match x, y with
  | Fin a, Fin b => (a == b)%Q
  | PInf, PInf | NInf, NInf | NaN, NaN => True
  | _, _ => False
  end.

(** [round(x, 2)]: nearest multiple of 0.01, halves to even; infinities and
    NaN are returned unchanged. *)
Definition round_half_even (q : Q) : Z :=
  let f := Qfloor q in
  match (q - inject_Z f ?= 1 # 2)%Q with
  | Lt => f
  | Gt => (f + 1)%Z
  | Eq => if Z.even f then f else (f + 1)%Z
  end.

Definition round2 (x : fval) : fval :=
  match x with
  | Fin q => Fin (inject_Z (round_half_even (q * 100)) / 100)%Q
  | _ => x
  end.

(** numpy reductions and elementwise operations on 1-d arrays *)
Definition np_sum (xs : list fval) : fval := fold_left fadd xs fzero.

Definition np_mean (xs : list fval) : fval :=
  fdiv (np_sum xs) (of_nat (length xs)).

Fixpoint map2 {A B C} (f : A -> B -> C) (xs : list A) (ys : list B) : list C :=
  match xs, ys with
  | x :: xs', y :: ys' => f x y :: map2 f xs' ys'
  | _, _ => []
  end.

(* ================================================================== *)
(** ** Exceptions and the trainer monad *)

Inductive exn : Type :=
| IndexError
| ValueError
| NotFittedError
| Exception (msg : string)
| LibraryError (code : nat).

Inductive outcome (A : Type) : Type :=
| Ok (a : A)
| Raise (e : exn).

Arguments Ok {A} a.
Arguments Raise {A} e.

Definition is_ok {A} (o : outcome A) : bool :=
  match o with Ok _ => true | Raise _ => false end.

(** ARIMA order (p, d, q) *)
Definition order : Type := (nat * nat * nat)%type.

(** Calls into the modelling libraries that fit a model. *)
Inductive event : Type :=
| CallAutoArima (train_data : list fval)
| CallArimaFit (data : list fval) (o : order)
| CallKerasFit (lookback : nat) (X : list (list fval)) (y : list fval).

(** Fitted attributes of sklearn's [MinMaxScaler]. *)
Record scaler_params : Type := { scale_ : fval; min_ : fval }.

(** A [ModelTrainer] instance: [self.scaler] (None while unfitted) and the
    record of fitting calls made so far. *)
Record trainer : Type := { scaler : option scaler_params; calls : list event }.

Definition ModelTrainer_init : trainer := {| scaler := None; calls := [] |}.

Definition M (A : Type) : Type := trainer -> outcome A * trainer.

Definition ret {A} (a : A) : M A := fun s => (Ok a, s).
Definition raise {A} (e : exn) : M A := fun s => (Raise e, s).

Definition bind {A B} (m : M A) (k : A -> M B) : M B :=
  fun s => match m s with
           | (Ok a, s') => k a s'
           | (Raise e, s') => (Raise e, s')
           end.

Definition lift {A} (o : outcome A) : M A := fun s => (o, s).

(** [try: body / except Exception: handler]; every [exn] is an [Exception]. *)
Definition try_except {A} (body : M A) (handler : exn -> M A) : M A :=
  fun s => match body s with
           | (Ok a, s') => (Ok a, s')
           | (Raise e, s') => handler e s'
           end.

Definition log (e : event) : M unit :=
  fun s => (Ok tt, {| scaler := scaler s; calls := calls s ++ [e] |}).

Declare Scope trainer_scope.
Delimit Scope trainer_scope with trainer.
Notation "x <- c1 ;; c2" := (bind c1 (fun x => c2))
  (at level 100, c1 at next level, right associativity) : trainer_scope.
Notation "' pat <- c1 ;; c2" := (bind c1 (fun x => match x with pat => c2 end))
  (at level 100, pat pattern, c1 at next level, right associativity) : trainer_scope.
Notation "c1 ;;; c2" := (bind c1 (fun _ => c2))
  (at level 100, right associativity) : trainer_scope.
Open Scope trainer_scope.

(** Exceptions without state, for the pure helpers. *)
Definition obind {A B} (o : outcome A) (k : A -> outcome B) : outcome B :=
  match o with
  | Ok a => k a
  | Raise e => Raise e
  end.

Notation "x <~ c1 ;; c2" := (obind c1 (fun x => c2))
  (at level 100, c1 at next level, right associativity) : trainer_scope.

(* ================================================================== *)
(** ** Data frames *)

(** A row of an asset's frame; [Date] is a day number (see [days_from_civil]).
    Only the columns read by the forecasting engine are kept. *)
Record row : Type := { Date : Z; Close : fval }.

Definition frame : Type := list row.

(** [df['Close'].values] *)
Definition closes (df : frame) : list fval := map Close df.

(** [series.iloc[-1]]: IndexError on an empty series *)
Definition iloc_last {A} (xs : list A) : outcome A :=
  match xs with
  | [] => Raise IndexError
  | x :: _ => Ok (last xs x)
  end.

(** [data[a:b]] for [0 <= a], and [data[-k:]] *)
Definition slice {A} (a b : nat) (xs : list A) : list A :=
  firstn (b - a) (skipn a xs).

Definition last_n {A} (k : nat) (xs : list A) : list A :=
  if (k =? 0)%nat then xs else skipn (length xs - k) xs.

(* ================================================================== *)
(** ** numpy.linspace and the metric functions of sklearn *)

(** [np.arange(0, num)] as floats *)
Definition np_arange (num : nat) : list fval := map of_nat (seq 0 num).

(** [y[-1] = v] on a non-empty array *)
Definition set_last (y : list fval) (v : fval) : list fval :=
  match y with
  | [] => []
  | _ => removelast y ++ [v]
  end.

(** [np.linspace(start, stop, num)] with [endpoint=True], after numpy's
    implementation: [div = num - 1]; for [div > 0] the grid is
    [arange * step + start] ([arange / div * delta + start] when the step is
    zero) and its last entry is then overwritten with [stop]; for [div <= 0]
    it is [arange * delta + start]. *)
Definition np_linspace (start stop : fval) (num : nat) : list fval :=
  let div := (num - 1)%nat in
  let delta := fsub stop start in
  let y := np_arange num in
  let y :=
    if (0 <? div)%nat then
      let step := fdiv delta (of_nat div) in
      if fis_zero step
      then map (fun v => fmul (fdiv v (of_nat div)) delta) y
      else map (fun v => fmul v step) y
    else map (fun v => fmul v delta) y in
  let y := map (fun v => fadd v start) y in
  if (1 <? num)%nat then set_last y stop else y.

(** Input validation shared by sklearn's regression metrics: equal lengths,
    at least one sample, no NaN and no infinity; ValueError otherwise. *)
Definition check_reg_targets (y_true y_pred : list fval) : outcome unit :=
  if negb (length y_true =? length y_pred)%nat then Raise ValueError
  else if (length y_true =? 0)%nat then Raise ValueError
  else if negb (forallb is_finite y_true && forallb is_finite y_pred)
       then Raise ValueError
  else Ok tt.

Definition mean_absolute_error (y_true y_pred : list fval) : outcome fval :=
  _ <~ check_reg_targets y_true y_pred ;;
  Ok (np_mean (map2 (fun t p => fabs (fsub p t)) y_true y_pred)).

Definition mean_squared_error (y_true y_pred : list fval) : outcome fval :=
  _ <~ check_reg_targets y_true y_pred ;;
  Ok (np_mean (map2 (fun t p => fmul (fsub t p) (fsub t p)) y_true y_pred)).

Record metrics : Type := { MAE : fval; RMSE : fval; MAPE : fval }.

(** [{'MAE': 0, 'RMSE': 0, 'MAPE': 0}] *)
Definition zero_metrics : metrics :=
  {| MAE := fzero; RMSE := fzero; MAPE := fzero |}.

(** Validation of sklearn's [inverse_transform]: at least one sample and no
    infinity (NaN is let through). *)
Definition check_array_allow_nan (xs : list fval) : outcome unit :=
  if (length xs =? 0)%nat then Raise ValueError
  else if existsb (fun x => match x with PInf | NInf => true | _ => false end) xs
       then Raise ValueError
  else Ok tt.

(** [X * scale_ + min_] and [(X - min_) / scale_] *)
Definition minmax_transform (p : scaler_params) (xs : list fval) : list fval :=
  map (fun x => fadd (fmul x (scale_ p)) (min_ p)) xs.

Definition minmax_inverse (p : scaler_params) (xs : list fval) : list fval :=
  map (fun x => fdiv (fsub x (min_ p)) (scale_ p)) xs.

(** [int(n * 0.8)]: the product is rounded to the nearest double and then
    truncated, which is [n * 8 / 10] for every length a frame can have. *)
Definition split_point (n : nat) : nat := (n * 8 / 10)%nat.

(** [np.array(X).shape[1]]: a list of windows becomes a 2-d array, the empty
    list a 1-d array of shape [(0,)] whose [shape[1]] is an IndexError. *)
Definition shape1 (X : list (list fval)) : outcome nat :=
  match X with
  | [] => Raise IndexError
  | w :: _ => Ok (length w)
  end.

(* ================================================================== *)
(** ** The modelling libraries *)

Record libraries : Type := {
  arima_model : Type;                 (* a fitted statsmodels ARIMA *)
  net : Type;                         (* a fitted Keras Sequential model *)
  HAS_ARIMA : bool;
  HAS_AUTO_ARIMA : bool;
  HAS_LSTM : bool;
  (* pmdarima.auto_arima(train, start_p=1, start_q=1, max_p=5, max_q=5,
     seasonal=False, stepwise=True, ...).order *)
  auto_arima : list fval -> outcome order;
  (* ARIMA(data, order=order).fit() *)
  arima_fit : list fval -> order -> outcome arima_model;
  (* fitted.forecast(steps=k) *)
  arima_forecast : arima_model -> nat -> outcome (list fval);
  (* fitted.predict(start=a, end=b) *)
  arima_predict : arima_model -> Z -> Z -> outcome (list fval);
  (* MinMaxScaler(feature_range=(0, 1)).fit(data): scale_ and min_ *)
  minmax_fit : list fval -> outcome scaler_params;
  (* Sequential([...]); compile; fit(X, y, batch_size=32, epochs=50, ...) *)
  keras_fit : nat -> list (list fval) -> list fval -> outcome net;
  (* model.predict(X): one value per window *)
  keras_predict : net -> list (list fval) -> outcome (list fval);
  np_sqrt : fval -> fval
}.

(* ================================================================== *)
(** ** class ModelTrainer *)

Section ModelTrainer.

Variable L : libraries.

(** [calculate_metrics(self, actual, predicted)] *)
Definition calculate_metrics (actual predicted : list fval) : outcome metrics :=
  mae <~ mean_absolute_error actual predicted ;;
  mse <~ mean_squared_error actual predicted ;;
  let rmse := np_sqrt L mse in
  let mape :=
    fmul (np_mean (map fabs (map2 (fun a p => fdiv (fsub a p) a) actual predicted)))
         (of_nat 100) in
  Ok {| MAE := round2 mae; RMSE := round2 rmse; MAPE := round2 mape |}.

(** The [except Exception] branch, the same statements in [train_arima] and
    [train_lstm]: a straight line from the last close to 1.05 times it, zero
    metrics, no model. *)
Definition fallback {H : Type} (df : frame) (forecast_steps : nat)
  : M (list fval * metrics * option H) :=
  last_price <- lift (iloc_last (closes df)) ;;
  let forecast :=
    np_linspace last_price (fmul last_price (Fin (105 # 100))) forecast_steps in
  ret (forecast, zero_metrics, None).

(** The [try] block of [train_arima]. *)
Definition train_arima_body (df : frame) (forecast_steps : nat)
  : M (list fval * metrics * option (arima_model L)) :=
  if negb (HAS_ARIMA L) then raise (Exception "statsmodels not installed") else
  let data := closes df in
  let train_size := split_point (length data) in
  let train_data := firstn train_size data in
  let test_data := skipn train_size data in
  order <- (if HAS_AUTO_ARIMA L
            then log (CallAutoArima train_data) ;;; lift (auto_arima L train_data)
            else ret (5, 1, 0)%nat) ;;
  log (CallArimaFit data order) ;;;
  fitted_model <- lift (arima_fit L data order) ;;
  forecast <- lift (arima_forecast L fitted_model forecast_steps) ;;
  test_predictions <-
    lift (arima_predict L fitted_model (Z.of_nat train_size)
                        (Z.of_nat (length data) - 1)) ;;
  metrics <- lift (calculate_metrics test_data test_predictions) ;;
  ret (forecast, metrics, Some fitted_model).

Definition train_arima (df : frame) (forecast_steps : nat)
  : M (list fval * metrics * option (arima_model L)) :=
  try_except (train_arima_body df forecast_steps)
             (fun _ => fallback df forecast_steps).

(** [prepare_lstm_data]: one window [data[i-lookback:i]] and one target
    [data[i]] for every [i] in [range(lookback, len(data))]. *)
Definition prepare_lstm_data (data : list fval) (lookback : nat)
  : list (list fval) * list fval :=
  let idx := seq lookback (length data - lookback) in
  (map (fun i => slice (i - lookback) i data) idx,
   map (fun i => nth i data NaN) idx).

(** [self.scaler.fit_transform(data)]: [fit] resets the scaler before it
    validates, so a failed fit leaves it unfitted. *)
Definition scaler_fit_transform (data : list fval) : M (list fval) :=
  fun s =>
    match minmax_fit L data with
    | Raise e => (Raise e, {| scaler := None; calls := calls s |})
    | Ok p => (Ok (minmax_transform p data),
               {| scaler := Some p; calls := calls s |})
    end.

(** [self.scaler.inverse_transform(xs)] *)
Definition scaler_inverse_transform (xs : list fval) : M (list fval) :=
  fun s =>
    match scaler s with
    | None => (Raise NotFittedError, s)
    | Some p =>
        match check_array_allow_nan xs with
        | Raise e => (Raise e, s)
        | Ok _ => (Ok (minmax_inverse p xs), s)
        end
    end.

(** The roll-forward loop of [train_lstm]: [steps] iterations over the pair
    ([last_sequence], [forecast]).  [reshape(1, lookback, 1)] is a ValueError
    unless the window holds [lookback] values; [next_pred[0, 0]] is an
    IndexError on an empty prediction. *)
Fixpoint roll_forward (model : net L) (lookback steps : nat)
                      (last_sequence forecast : list fval)
  : outcome (list fval) :=
  match steps with
  | O => Ok forecast
  | S steps' =>
      if negb (length last_sequence =? lookback)%nat then Raise ValueError else
      next_pred <~ keras_predict L model [last_sequence] ;;
      match next_pred with
      | [] => Raise IndexError
      | p :: _ =>
          roll_forward model lookback steps'
                       (tl last_sequence ++ next_pred) (forecast ++ [p])
      end
  end.

(** The [try] block of [train_lstm]. *)
Definition train_lstm_body (df : frame) (forecast_steps lookback : nat)
  : M (list fval * metrics * option (net L)) :=
  if negb (HAS_LSTM L) then raise (Exception "TensorFlow not installed") else
  let data := closes df in
  scaled_data <- scaler_fit_transform data ;;
  let train_size := split_point (length scaled_data) in
  let '(X_train, y_train) :=
    prepare_lstm_data (firstn (train_size + lookback) scaled_data) lookback in
  let '(X_test, y_test) :=
    prepare_lstm_data (skipn train_size scaled_data) lookback in
  _ <- lift (shape1 X_train) ;;
  _ <- lift (shape1 X_test) ;;
  log (CallKerasFit lookback X_train y_train) ;;;
  model <- lift (keras_fit L lookback X_train y_train) ;;
  test_predictions <- lift (keras_predict L model X_test) ;;
  test_predictions <- scaler_inverse_transform test_predictions ;;
  actual_test <- scaler_inverse_transform y_test ;;
  metrics <- lift (calculate_metrics actual_test test_predictions) ;;
  let last_sequence := last_n lookback scaled_data in
  forecast <- lift (roll_forward model lookback forecast_steps last_sequence []) ;;
  forecast <- scaler_inverse_transform forecast ;;
  ret (forecast, metrics, Some model).

Definition train_lstm (df : frame) (forecast_steps lookback : nat)
  : M (list fval * metrics * option (net L)) :=
  try_except (train_lstm_body df forecast_steps lookback)
             (fun _ => fallback df forecast_steps).

(** The dictionary returned by [train_and_forecast]. *)
Record results : Type := {
  asset : string;
  arima_forecast_ : list fval;
  arima_metrics : metrics;
  lstm_forecast : list fval;
  lstm_metrics : metrics;
  models : option (arima_model L) * option (net L)
}.

Definition train_and_forecast (df : frame) (asset_name : string)
                              (forecast_steps : nat) : M results :=
  r1 <- train_arima df forecast_steps ;;
  let '(arima_forecast, arima_metrics, arima_model) := r1 in
  r2 <- train_lstm df forecast_steps 60 ;;
  let '(lstm_forecast, lstm_metrics, lstm_model) := r2 in
  ret {| asset := asset_name;
         arima_forecast_ := arima_forecast;
         arima_metrics := arima_metrics;
         lstm_forecast := lstm_forecast;
         lstm_metrics := lstm_metrics;
         models := (arima_model, lstm_model) |}.

(** A row of the frame built by [batch_train_all_assets]. *)
Record metrics_row : Type := {
  Asset : string;
  ARIMA_MAE : fval; ARIMA_RMSE : fval; ARIMA_MAPE : fval;
  LSTM_MAE : fval; LSTM_RMSE : fval; LSTM_MAPE : fval
}.

(** [data_dict.items()] in iteration order *)
Fixpoint batch_train_all_assets (data_dict : list (string * frame))
  : M (list metrics_row) :=
  match data_dict with
  | [] => ret []
  | (asset_name, df) :: rest =>
      r <- train_and_forecast df asset_name 30 ;;
      let row := {| Asset := asset_name;
                    ARIMA_MAE := MAE (arima_metrics r);
                    ARIMA_RMSE := RMSE (arima_metrics r);
                    ARIMA_MAPE := MAPE (arima_metrics r);
                    LSTM_MAE := MAE (lstm_metrics r);
                    LSTM_RMSE := RMSE (lstm_metrics r);
                    LSTM_MAPE := MAPE (lstm_metrics r) |} in
      all_metrics <- batch_train_all_assets rest ;;
      ret (row :: all_metrics)
  end.

End ModelTrainer.

(* ================================================================== *)
(** ** Calendar dates

    A pandas Timestamp at midnight is its day number, counted from
    1970-01-01; [freq='D'] steps are additions of one. *)

Definition days_from_civil (y m d : Z) : Z :=
  let y := if (m <=? 2)%Z then (y - 1)%Z else y in
  let era := (y / 400)%Z in
  let yoe := (y - era * 400)%Z in
  let mp := if (2 <? m)%Z then (m - 3)%Z else (m + 9)%Z in
  let doy := ((153 * mp + 2) / 5 + d - 1)%Z in
  let doe := (yoe * 365 + yoe / 4 - yoe / 100 + doy)%Z in
  (era * 146097 + doe - 719468)%Z.

Definition civil_from_days (z : Z) : Z * Z * Z :=
  let z := (z + 719468)%Z in
  let era := (z / 146097)%Z in
  let doe := (z - era * 146097)%Z in
  let yoe := ((doe - doe / 1460 + doe / 36524 - doe / 146096) / 365)%Z in
  let y := (yoe + era * 400)%Z in
  let doy := (doe - (365 * yoe + yoe / 4 - yoe / 100))%Z in
  let mp := ((5 * doy + 2) / 153)%Z in
  let d := (doy - (153 * mp + 2) / 5 + 1)%Z in
  let m := if (mp <? 10)%Z then (mp + 3)%Z else (mp - 9)%Z in
  (if (m <=? 2)%Z then (y + 1)%Z else y, m, d).

(** [pd.date_range(start=start, periods=periods, freq='D')] *)
Definition date_range (start : Z) (periods : nat) : list Z :=
  map (fun k => (start + Z.of_nat k)%Z) (seq 0 periods).

(* ================================================================== *)
(** ** The routes of app.py that use the trainer *)

Section App.

Variable L : libraries.

(** [all_data]: asset name to frame, in insertion order, names distinct *)
Definition universe : Type := list (string * frame).

Fixpoint lookup (name : string) (d : universe) : option frame :=
  match d with
  | [] => None
  | (k, df) :: rest => if String.eqb name k then Some df else lookup name rest
  end.

(** The lambda of [compare]:
    ['ARIMA' if row['ARIMA_MAE'] < row['LSTM_MAE'] else 'LSTM'] *)
Definition best_model (r : metrics_row) : string :=
  if flt (ARIMA_MAE r) (LSTM_MAE r) then "ARIMA"%string else "LSTM"%string.

Inductive compare_page : Type :=
| CompareError (error : string)
| CompareTable (table : list (metrics_row * string)).

(** [compare()]: the metrics frame with its [Best_Model] column *)
Definition compare (all_data : universe) : M compare_page :=
  match all_data with
  | [] => ret (CompareError "No data available for comparison")
  | _ =>
      metrics_df <- batch_train_all_assets L all_data ;;
      ret (CompareTable (map (fun r => (r, best_model r)) metrics_df))
  end.

Record csv_row : Type :=
  { csv_Date : Z; ARIMA_Forecast : fval; LSTM_Forecast : fval }.

(** [pd.DataFrame({'Date': .., 'ARIMA_Forecast': .., 'LSTM_Forecast': ..})]:
    a ValueError unless the three arrays have one length. *)
Fixpoint zip3 (ds : list Z) (a b : list fval) : list csv_row :=
  match ds, a, b with
  | d :: ds', x :: a', y :: b' =>
      {| csv_Date := d; ARIMA_Forecast := x; LSTM_Forecast := y |} :: zip3 ds' a' b'
  | _, _, _ => []
  end.

Definition forecast_frame (ds : list Z) (a b : list fval) : outcome (list csv_row) :=
  if ((length a =? length ds) && (length b =? length ds))%nat
  then Ok (zip3 ds a b)
  else Raise ValueError.

Inductive download_response : Type :=
| BadRequest (error : string)
| CsvFile (download_name : string) (rows : list csv_row).

(** [download_forecast()]; [asset] is [request.args.get('asset')] *)
Definition download_forecast (all_data : universe) (asset : option string)
  : M download_response :=
  match asset with
  | None => ret (BadRequest "Invalid asset")
  | Some name =>
      if String.eqb name "" then ret (BadRequest "Invalid asset") else
      match lookup name all_data with
      | None => ret (BadRequest "Invalid asset")
      | Some df =>
          results <- train_and_forecast L df name 30 ;;
          last_date <- lift (iloc_last (map Date df)) ;;
          let forecast_dates := tl (date_range last_date 31) in
          forecast_df <-
            lift (forecast_frame forecast_dates (arima_forecast_ results)
                                 (lstm_forecast results)) ;;
          ret (CsvFile (name ++ "_forecast.csv") forecast_df)
      end
  end.

End App.

(* ================================================================== *)
(** ** Feature derivation of data_loader.py

    [clean_data] on the [Close] column, taken after [sort_values("Date")]:
    forward and backward fill, then the three derived columns. *)

Section DataLoader.

Variable L : libraries.

Fixpoint ffill_from (prev : fval) (xs : list fval) : list fval :=
  match xs with
  | [] => []
  | x :: rest =>
      let v := if is_nan x then prev else x in
      v :: ffill_from v rest
  end.

(** [df.ffill()] and [df.bfill()] on one column *)
Definition ffill (xs : list fval) : list fval := ffill_from NaN xs.
Definition bfill (xs : list fval) : list fval := rev (ffill (rev xs)).


(** The finite values of a window, if all of them are finite.  pandas'
    rolling windows count NaN and infinite entries as missing. *)
Fixpoint all_finite (xs : list fval) : option (list Q) :=
  match xs with
  | [] => Some []
  | Fin q :: rest =>
      match all_finite rest with Some qs => Some (q :: qs) | None => None end
  | _ :: _ => None
  end.





Record features : Type := {
  Close_ : list fval;
  Daily_Return : list fval;
  Volatility_30D : list fval;
  MA_50 : list fval
}.


End DataLoader.

(* ================================================================== *)
(** ** Two library configurations to run the model on *)

(** A rational stand-in for the square root: exact to six decimals. *)
Definition sqrt_approx (x : fval) : fval :=
  match x with
  | Fin q =>
      match (q ?= 0)%Q with
      | Lt => NaN
      | _ => Fin (inject_Z (Z.sqrt (Qfloor (q * 1000000000000))) / 1000000)%Q
      end
  | PInf => PInf
  | NInf | NaN => NaN
  end.

(** None of statsmodels, pmdarima and TensorFlow is installed. *)
Definition no_libs : libraries := {|
  arima_model := unit;
  net := unit;
  HAS_ARIMA := false;
  HAS_AUTO_ARIMA := false;
  HAS_LSTM := false;
  auto_arima := fun _ => Raise (Exception "auto_arima is not defined");
  arima_fit := fun _ _ => Raise (Exception "ARIMA is not defined");
  arima_forecast := fun _ _ => Raise (Exception "ARIMA is not defined");
  arima_predict := fun _ _ _ => Raise (Exception "ARIMA is not defined");
  minmax_fit := fun _ => Raise ValueError;
  keras_fit := fun _ _ _ => Raise (Exception "Sequential is not defined");
  keras_predict := fun _ _ => Raise (Exception "Sequential is not defined");
  np_sqrt := sqrt_approx
|}.

Definition Qmin_list (q : Q) (qs : list Q) : Q :=
  fold_left (fun a b => if Qle_bool a b then a else b) qs q.
Definition Qmax_list (q : Q) (qs : list Q) : Q :=
  fold_left (fun a b => if Qle_bool a b then b else a) qs q.

(** Min-max scaling to [0, 1] of a non-empty finite column; a constant column
    gets scale 1. *)
Definition minmax_fit_finite (data : list fval) : outcome scaler_params :=
  match all_finite data with
  | Some (q :: qs) =>
      let lo := Qmin_list q qs in
      let hi := Qmax_list q qs in
      let range := if Qeq_bool (hi - lo) 0 then 1%Q else (hi - lo)%Q in
      Ok {| scale_ := Fin (1 / range)%Q; min_ := Fin (0 - lo * (1 / range))%Q |}
  | _ => Raise ValueError
  end.

(** Everything is installed and every model is the persistence model: it
    predicts the value it saw last.  A fitted ARIMA is the series it was fit
    on; fitting needs one observation, the order search three. *)
Definition persistence_libs : libraries := {|
  arima_model := list fval;
  net := unit;
  HAS_ARIMA := true;
  HAS_AUTO_ARIMA := true;
  HAS_LSTM := true;
  auto_arima := fun train =>
    if (length train <? 3)%nat then Raise ValueError else Ok (1, 1, 1)%nat;
  arima_fit := fun data _ =>
    match data with [] => Raise ValueError | _ => Ok data end;
  arima_forecast := fun m k => Ok (repeat (last m NaN) k);
  arima_predict := fun m a b =>
    Ok (map (fun i => nth (i - 1) m NaN)
            (seq (Z.to_nat a) (Z.to_nat (b + 1 - a))));
  minmax_fit := minmax_fit_finite;
  keras_fit := fun _ _ _ => Ok tt;
  keras_predict := fun _ X => Ok (map (fun w => last w NaN) X);
  np_sqrt := sqrt_approx
|}.

(** As [persistence_libs], without pmdarima: the order is the fixed one. *)
Definition fixed_order_libs : libraries := {|
  arima_model := list fval;
  net := unit;
  HAS_ARIMA := true;
  HAS_AUTO_ARIMA := false;
  HAS_LSTM := true;
  auto_arima := fun _ => Raise (Exception "auto_arima is not defined");
  arima_fit := arima_fit persistence_libs;
  arima_forecast := arima_forecast persistence_libs;
  arima_predict := arima_predict persistence_libs;
  minmax_fit := minmax_fit_finite;
  keras_fit := fun _ _ _ => Ok tt;
  keras_predict := fun _ X => Ok (map (fun w => last w NaN) X);
  np_sqrt := sqrt_approx
|}.

(** An asset with one observation, dated 2024-01-01, closing at 100. *)
Definition one_day : frame :=
  [ {| Date := days_from_civil 2024 1 1; Close := Fin 100 |} ].

(** [n] consecutive days from 2024-01-01 closing at 100, 101, ... *)
Definition ramp (n : nat) : frame :=
  map (fun k => {| Date := (days_from_civil 2024 1 1 + Z.of_nat k)%Z;
                   Close := Fin (inject_Z (100 + Z.of_nat k)) |})
      (seq 0 n).

Definition all_zero_row (name : string) : metrics_row :=
  {| Asset := name;
     ARIMA_MAE := fzero; ARIMA_RMSE := fzero; ARIMA_MAPE := fzero;
     LSTM_MAE := fzero; LSTM_RMSE := fzero; LSTM_MAPE := fzero |}.

(* ================================================================== *)
(** ** class DataLoader: the store of frames *)

(** [d[k] = v] on a dictionary in insertion order: a key already there keeps
    its place. *)
Fixpoint dict_set (k : string) (v : frame) (d : universe) : universe :=
  match d with
  | [] => [(k, v)]
  | (k', v') :: rest =>
      if String.eqb k k' then (k, v) :: rest else (k', v') :: dict_set k v rest
  end.

(** [{**a, **b}] *)
Definition dict_merge (a b : universe) : universe :=
  fold_left (fun d kv => dict_set (fst kv) (snd kv) d) b a.

Record DataLoader : Type := { crypto_dfs : universe; stock_dfs : universe }.

(** [get_asset_list(self, asset_type)] *)
Definition get_asset_list (self : DataLoader) (asset_type : string) : list string :=
  if String.eqb asset_type "crypto" then map fst (crypto_dfs self)
  else if String.eqb asset_type "stock" then map fst (stock_dfs self)
  else map fst (crypto_dfs self) ++ map fst (stock_dfs self).

(** [get_data(self, asset_name)]: the frame and its kind, or [(None, None)] *)
Definition get_data (self : DataLoader) (asset_name : string)
  : option frame * option string :=
  match lookup asset_name (crypto_dfs self) with
  | Some df => (Some df, Some "crypto"%string)
  | None =>
      match lookup asset_name (stock_dfs self) with
      | Some df => (Some df, Some "stock"%string)
      | None => (None, None)
      end
  end.

(** [get_all_data(self)], also [all_data] of app.py *)
Definition get_all_data (self : DataLoader) : universe :=
  dict_merge (crypto_dfs self) (stock_dfs self).

(** [s.split(sep)] for a separator of one character *)
Fixpoint split_on (sep : ascii) (s : string) : list string :=
  match s with
  | EmptyString => [EmptyString]
  | String c rest =>
      if Ascii.eqb c sep then EmptyString :: split_on sep rest
      else match split_on sep rest with
           | [] => [String c EmptyString]
           | seg :: segs => String c seg :: segs
           end
  end.

(** The asset name [load_all_data] reads off a file's base name:
    [basename.split("_")[1].split(".")[0]]. *)
Definition asset_name_of (basename : string) : outcome string :=
  match split_on "_" basename with
  | _ :: second :: _ =>
      match split_on "." second with
      | first :: _ => Ok first
      | [] => Raise IndexError
      end
  | _ => Raise IndexError
  end.

(** A date as Python sees it: [None], pandas' [NaT], or a timestamp. *)
Inductive pydate : Type :=
| PyNone
| NaT
| Timestamp (d : Z).

(** [<] and [>] on dates: every comparison with [NaT] is false. *)
Definition date_lt (a b : pydate) : bool :=
  match a, b with
  | Timestamp x, Timestamp y => (x <? y)%Z
  | _, _ => false
  end.

Definition date_gt (a b : pydate) : bool := date_lt b a.

(** Python's [min] and [max] over a non-empty iterable: the first item, then
    every item that compares below (above) the best so far. *)
Definition py_min (first : pydate) (rest : list pydate) : pydate :=
  fold_left (fun best x => if date_lt x best then x else best) rest first.

Definition py_max (first : pydate) (rest : list pydate) : pydate :=
  fold_left (fun best x => if date_gt x best then x else best) rest first.

(** [df["Date"].min()] and [df["Date"].max()]: [NaT] on an empty frame *)
Definition Date_min (df : frame) : pydate :=
  match map Date df with
  | [] => NaT
  | d :: ds => Timestamp (fold_left Z.min ds d)
  end.

Definition Date_max (df : frame) : pydate :=
  match map Date df with
  | [] => NaT
  | d :: ds => Timestamp (fold_left Z.max ds d)
  end.

(** [get_date_range(self)] *)
Definition get_date_range (self : DataLoader) : pydate * pydate :=
  let all_dfs := map snd (crypto_dfs self) ++ map snd (stock_dfs self) in
  match all_dfs with
  | [] => (PyNone, PyNone)
  | df :: dfs =>
      (py_min (Date_min df) (map Date_min dfs),
       py_max (Date_max df) (map Date_max dfs))
  end.

(* ================================================================== *)
(** ** More of app.py *)

(** [series.fillna(v)]: only NaN counts as missing *)
Definition fillna (v : fval) (xs : list fval) : list fval :=
  map (fun x => if is_nan x then v else x) xs.

(** A frame as [clean_data] leaves it, by columns. *)
Record asset_frame : Type := {
  af_Date : list Z;
  af_Volume : list fval;
  af_columns : features
}.

Record asset_json : Type := {
  json_asset : string;
  json_dates : list (Z * Z * Z);
  json_close : list fval;
  json_volume : list fval;
  json_daily_return : list fval;
  json_volatility : list fval
}.

Inductive api_response : Type :=
| NotFound (error : string)
| Json (data : asset_json).

Fixpoint lookup_frame (name : string) (d : list (string * asset_frame))
  : option asset_frame :=
  match d with
  | [] => None
  | (k, df) :: rest => if String.eqb name k then Some df else lookup_frame name rest
  end.

(** [api_asset_data(asset_name)] *)
Definition api_asset_data (all_data : list (string * asset_frame))
                          (asset_name : string) : api_response :=
  match lookup_frame asset_name all_data with
  | None => NotFound "Asset not found"
  | Some df =>
      Json {| json_asset := asset_name;
              json_dates := map civil_from_days (af_Date df);
              json_close := Close_ (af_columns df);
              json_volume := af_Volume df;
              json_daily_return := fillna (Fin 0) (Daily_Return (af_columns df));
              json_volatility := fillna (Fin 0) (Volatility_30D (af_columns df)) |}
  end.

(** [series.mean()] of pandas: NaN entries are skipped *)
Definition pd_mean (xs : list fval) : fval :=
  match filter (fun x => negb (is_nan x)) xs with
  | [] => NaN
  | vs => np_mean vs
  end.

(** The [summary] dictionary of [compare()], from the frame with its
    [Best_Model] column. *)
Record summary : Type := {
  arima_wins : nat;
  lstm_wins : nat;
  total_assets : nat;
  avg_arima_mae : fval;
  avg_lstm_mae : fval
}.

Definition compare_summary (table : list (metrics_row * string)) : summary :=
  {| arima_wins := length (filter (fun rw => String.eqb (snd rw) "ARIMA") table);
     lstm_wins := length (filter (fun rw => String.eqb (snd rw) "LSTM") table);
     total_assets := length table;
     avg_arima_mae := round2 (pd_mean (map (fun rw => ARIMA_MAE (fst rw)) table));
     avg_lstm_mae := round2 (pd_mean (map (fun rw => LSTM_MAE (fst rw)) table)) |}.

(* ================================================================== *)
(** ** Vocabulary of the properties *)

(** [+inf] or NaN: the undefined values a sum of absolute values can take *)
Definition pos_undefined (x : fval) : bool :=
  match x with PInf | NaN => true | _ => false end.

(** What the label of a row says about its two MAE values. *)
Definition winner_rule (r : metrics_row) (w : string) : Prop :=
  (flt (ARIMA_MAE r) (LSTM_MAE r) = true -> w = "ARIMA"%string) /\
  (flt (LSTM_MAE r) (ARIMA_MAE r) = true -> w = "LSTM"%string) /\
  (feq (ARIMA_MAE r) (LSTM_MAE r) -> w = "LSTM"%string) /\
  (w = "ARIMA"%string \/ w = "LSTM"%string).

(** A computation [respects] the scaler when its result and the scaler it
    leaves depend on the trainer only through the scaler it finds; it
    [resets] the scaler when they do not depend on the trainer at all. *)
Definition respects {A} (m : M A) : Prop :=
  forall s1 s2, scaler s1 = scaler s2 ->
    fst (m s1) = fst (m s2) /\ scaler (snd (m s1)) = scaler (snd (m s2)).




(** The order [train_arima] fits with: the one pmdarima finds on the training
    slice, or (5, 1, 0) when pmdarima is missing. *)
Definition selected_order (L : libraries) (train_data : list fval) (o : order)
  : Prop :=
  if HAS_AUTO_ARIMA L then auto_arima L train_data = Ok o
  else o = (5, 1, 0)%nat.

(** Each date is the day after the one before it, starting after [d]. *)
Fixpoint consecutive_after (d : Z) (ds : list Z) : Prop :=
  match ds with
  | [] => True
  | x :: rest => x = (d + 1)%Z /\ consecutive_after x rest
  end.

(** A usable price: finite and not zero. *)
Definition priced (x : fval) : bool :=
  match x with Fin q => negb (Qeq_bool q 0) | _ => false end.



(** A computation that leaves [self.scaler] as it found it. *)
Definition keeps_scaler {A} (m : M A) : Prop :=
  forall s, scaler (snd (m s)) = scaler s.

(** The characters of a string before its first ["_"] or ["."]. *)
Fixpoint stem (s : string) : string :=
  match s with
  | EmptyString => EmptyString
  | String c rest =>
      if (Ascii.eqb c "_" || Ascii.eqb c ".")%bool then EmptyString
      else String c (stem rest)
  end.

Fixpoint has_char (sep : ascii) (s : string) : bool :=
  match s with
  | EmptyString => false
  | String c rest => (Ascii.eqb c sep || has_char sep rest)%bool
  end.

(** Every frame of the universe has at least one row. *)
Definition all_nonempty (data : universe) : Prop :=
  Forall (fun kv => snd kv <> []) data.


(** The characters of a string before the first [sep], all of it when there
    is none. *)
Fixpoint before (sep : ascii) (s : string) : string :=
  match s with
  | EmptyString => EmptyString
  | String c rest =>
      if Ascii.eqb c sep then EmptyString else String c (before sep rest)
  end.

(* ================================================================== *)
(** * Properties *)

(** ** Floats *)

Lemma feq_refl (x : fval) : feq x x.
Proof. destruct x; simpl; auto. reflexivity. Qed.

Lemma feq_sym (x y : fval) : feq x y -> feq y x.
Proof. destruct x, y; simpl; auto. intro H; symmetry; exact H. Qed.


Lemma flt_Fin (a b : Q) : flt (Fin a) (Fin b) = true <-> (a < b)%Q.
Proof.
  simpl. rewrite Qlt_alt. destruct (a ?= b)%Q; split; congruence.
Qed.

Lemma flt_irrefl_feq (x y : fval) : feq x y -> flt x y = false.
Proof.
  destruct x, y; simpl; auto; try contradiction.
  intro H. apply Qeq_alt in H. rewrite H. reflexivity.
Qed.

Lemma flt_asym (x y : fval) : flt x y = true -> flt y x = false.
Proof.
  destruct x, y; simpl; auto; try discriminate.
  destruct (q ?= q0)%Q eqn:E; try discriminate. intros _.
  rewrite <- Qlt_alt in E.
  destruct (q0 ?= q)%Q eqn:E'; auto.
  rewrite <- Qlt_alt in E'. exfalso. lra.
Qed.

Lemma of_nat_pos (n : nat) :
  (0 < n)%nat -> (inject_Z (Z.of_nat n) ?= 0)%Q = Gt.
Proof.
  intro H. apply Qgt_alt. change 0%Q with (inject_Z 0).
  rewrite <- Zlt_Qlt. lia.
Qed.

Lemma pos_undefined_is_undefined (x : fval) :
  pos_undefined x = true -> is_undefined x = true.
Proof. destruct x; simpl; auto. Qed.

Lemma fabs_not_NInf (x : fval) : fabs x <> NInf.
Proof. destruct x; simpl; discriminate. Qed.

Lemma fadd_keeps_undefined (acc x : fval) :
  pos_undefined acc = true -> x <> NInf -> pos_undefined (fadd acc x) = true.
Proof. destruct acc, x; simpl; congruence. Qed.

Lemma fadd_gets_undefined (acc x : fval) :
  acc <> NInf -> pos_undefined x = true -> pos_undefined (fadd acc x) = true.
Proof. destruct acc, x; simpl; congruence. Qed.

Lemma fadd_not_NInf (acc x : fval) :
  acc <> NInf -> x <> NInf -> fadd acc x <> NInf.
Proof. destruct acc, x; simpl; congruence. Qed.

Lemma sum_keeps_undefined (xs : list fval) : forall acc,
  pos_undefined acc = true ->
  Forall (fun x => x <> NInf) xs ->
  pos_undefined (fold_left fadd xs acc) = true.
Proof.
  induction xs as [|x xs IH]; intros acc Hacc Hall; simpl; auto.
  inversion Hall; subst. apply IH; auto using fadd_keeps_undefined.
Qed.

Lemma sum_gets_undefined (xs : list fval) : forall acc,
  acc <> NInf ->
  Forall (fun x => x <> NInf) xs ->
  Exists (fun x => pos_undefined x = true) xs ->
  pos_undefined (fold_left fadd xs acc) = true.
Proof.
  induction xs as [|x xs IH]; intros acc Hacc Hall Hex; simpl.
  - inversion Hex.
  - inversion Hall; subst. inversion Hex; subst.
    + apply sum_keeps_undefined; auto using fadd_gets_undefined.
    + apply IH; auto using fadd_not_NInf.
Qed.

Lemma mean_undefined (xs : list fval) :
  Forall (fun x => x <> NInf) xs ->
  Exists (fun x => pos_undefined x = true) xs ->
  pos_undefined (np_mean xs) = true.
Proof.
  intros Hall Hex. unfold np_mean, np_sum.
  assert (Hlen : (0 < length xs)%nat)
    by (destruct xs; [inversion Hex | simpl; lia]).
  pose proof (@sum_gets_undefined xs fzero) as Hs.
  specialize (Hs ltac:(discriminate) Hall Hex).
  unfold of_nat.
  destruct (fold_left fadd xs fzero); simpl in *; try discriminate; auto.
  rewrite (of_nat_pos Hlen). reflexivity.
Qed.

(** ** The monad *)

Lemma bind_Ok {A B} (m : M A) (k : A -> M B) s b s' :
  bind m k s = (Ok b, s') ->
  exists a s1, m s = (Ok a, s1) /\ k a s1 = (Ok b, s').
Proof.
  unfold bind. destruct (m s) as [[a|e] s1]; intro H.
  - eauto.
  - discriminate.
Qed.

Lemma obind_Ok {A B} (o : outcome A) (k : A -> outcome B) b :
  obind o k = Ok b -> exists a, o = Ok a /\ k a = Ok b.
Proof. destruct o; simpl; intro H; [eauto | discriminate]. Qed.

Lemma lift_Ok {A} (o : outcome A) s a s' :
  lift o s = (Ok a, s') -> o = Ok a /\ s' = s.
Proof. unfold lift. intro H; inversion H; auto. Qed.

Lemma scaler_inverse_transform_Ok (xs ys : list fval) s s' :
  scaler_inverse_transform xs s = (Ok ys, s') ->
  s' = s /\ length ys = length xs /\
  exists p, scaler s = Some p /\ ys = minmax_inverse p xs.
Proof.
  unfold scaler_inverse_transform.
  destruct (scaler s) as [p|]; [|discriminate].
  destruct (check_array_allow_nan xs); [|discriminate].
  intro H; inversion H; subst.
  split; auto. split; [apply length_map | eauto].
Qed.

Lemma scaler_fit_transform_Ok (L : libraries) data scaled s s' :
  scaler_fit_transform L data s = (Ok scaled, s') ->
  length scaled = length data /\ calls s' = calls s /\
  exists p, minmax_fit L data = Ok p /\ scaler s' = Some p.
Proof.
  unfold scaler_fit_transform. destruct (minmax_fit L data) as [p|]; [|discriminate].
  intro H; inversion H; subst. simpl.
  split; [apply length_map | eauto].
Qed.

Lemma scaler_fit_transform_Raise (L : libraries) data e s s' :
  scaler_fit_transform L data s = (Raise e, s') ->
  calls s' = calls s /\ minmax_fit L data = Raise e.
Proof.
  unfold scaler_fit_transform. destruct (minmax_fit L data) as [p|]; [discriminate|].
  intro H; inversion H; subst. simpl. auto.
Qed.

(** ** sklearn's validation and [calculate_metrics] *)

Lemma check_reg_targets_Ok (y_true y_pred : list fval) u :
  check_reg_targets y_true y_pred = Ok u ->
  length y_true = length y_pred /\ (0 < length y_true)%nat /\
  forallb is_finite y_true = true /\ forallb is_finite y_pred = true.
Proof.
  unfold check_reg_targets.
  destruct (length y_true =? length y_pred)%nat eqn:E1; simpl; try discriminate.
  destruct (length y_true =? 0)%nat eqn:E2; try discriminate.
  destruct (forallb is_finite y_true) eqn:E3; simpl; try discriminate.
  destruct (forallb is_finite y_pred) eqn:E4; simpl; try discriminate.
  apply Nat.eqb_eq in E1. apply Nat.eqb_neq in E2. intros _.
  repeat split; auto; lia.
Qed.

Lemma check_reg_targets_Raise (y_true y_pred : list fval) e :
  check_reg_targets y_true y_pred = Raise e -> e = ValueError.
Proof.
  unfold check_reg_targets.
  repeat match goal with |- context [if ?c then _ else _] => destruct c end;
    congruence.
Qed.

Lemma calculate_metrics_raises_ValueError (L : libraries) actual predicted e :
  calculate_metrics L actual predicted = Raise e -> e = ValueError.
Proof.
  unfold calculate_metrics, mean_absolute_error, mean_squared_error.
  destruct (check_reg_targets actual predicted) eqn:E; simpl.
  - discriminate.
  - intro H; inversion H; subst. eauto using check_reg_targets_Raise.
Qed.

Lemma calculate_metrics_Ok (L : libraries) actual predicted m :
  calculate_metrics L actual predicted = Ok m ->
  length actual = length predicted /\ (0 < length actual)%nat /\
  forallb is_finite actual = true /\ forallb is_finite predicted = true /\
  MAPE m =
    round2 (fmul (np_mean (map fabs (map2 (fun a p => fdiv (fsub a p) a)
                                          actual predicted)))
                 (of_nat 100)).
Proof.
  unfold calculate_metrics, mean_absolute_error, mean_squared_error.
  destruct (check_reg_targets actual predicted) as [u|] eqn:E; simpl;
    try discriminate.
  intro H; inversion H; subst; simpl.
  apply check_reg_targets_Ok in E. tauto.
Qed.

Lemma calculate_metrics_empty (L : libraries) predicted :
  calculate_metrics L [] predicted = Raise ValueError.
Proof.
  unfold calculate_metrics, mean_absolute_error, check_reg_targets.
  destruct predicted; reflexivity.
Qed.

Lemma ape_of_zero_actual (a p : Q) :
  (a == 0)%Q ->
  pos_undefined (fabs (fdiv (fsub (Fin a) (Fin p)) (Fin a))) = true.
Proof.
  intro Ha. simpl. apply Qeq_alt in Ha. rewrite Ha.
  destruct (a + - p ?= 0)%Q; reflexivity.
Qed.

Lemma ape_list_has_undefined : forall (actual predicted : list fval),
  length actual = length predicted ->
  forallb is_finite predicted = true ->
  (exists i a, nth_error actual i = Some (Fin a) /\ (a == 0)%Q) ->
  Exists (fun x => pos_undefined x = true)
         (map fabs (map2 (fun a p => fdiv (fsub a p) a) actual predicted)).
Proof.
  induction actual as [|x actual IH]; intros predicted Hlen Hfin [i [a [Hi Ha]]].
  - destruct i; discriminate.
  - destruct predicted as [|p predicted]; [discriminate|].
    simpl in Hlen, Hfin. apply andb_prop in Hfin as [Hp Hfin].
    destruct i as [|i]; simpl in Hi.
    + inversion Hi; subst. destruct p; try discriminate.
      simpl map. apply Exists_cons_hd. apply ape_of_zero_actual; auto.
    + simpl map. apply Exists_cons_tl. apply IH; eauto.
Qed.

(** C6: [calculate_metrics] divides by the raw actual values: whenever some
    actual value is zero, the call either fails (sklearn rejects the input)
    or returns a MAPE that is infinite or NaN. *)
Theorem C6_mape_undefined_when_an_actual_is_zero :
  forall (L : libraries) (actual predicted : list fval),
    length actual = length predicted ->
    (exists i a, nth_error actual i = Some (Fin a) /\ (a == 0)%Q) ->
    match calculate_metrics L actual predicted with
    | Raise _ => True
    | Ok m => is_undefined (MAPE m) = true
    end.
Proof.
  intros L actual predicted Hlen Hzero.
  destruct (calculate_metrics L actual predicted) as [m|e] eqn:E; [|exact I].
  apply calculate_metrics_Ok in E as (_ & _ & _ & Hfin & ->).
  pose proof (ape_list_has_undefined actual predicted Hlen Hfin Hzero) as Hex.
  assert (Hall : Forall (fun x => x <> NInf)
            (map fabs (map2 (fun a p => fdiv (fsub a p) a) actual predicted))).
  { apply Forall_forall. intros x Hx. apply in_map_iff in Hx as [y [<- _]].
    apply fabs_not_NInf. }
  pose proof (mean_undefined Hall Hex) as Hm.
  destruct (np_mean _); simpl in Hm; try discriminate; reflexivity.
Qed.

(** On a holdout of two closes, the first of them zero, both predicted as 1:
    the call returns, and its MAPE is infinite. *)
Lemma C6_witness :
  match calculate_metrics persistence_libs [Fin 0; Fin 2] [Fin 1; Fin 1] with
  | Raise _ => True
  | Ok m => is_undefined (MAPE m) = true
  end
  /\ option_map MAPE
       (match calculate_metrics persistence_libs [Fin 0; Fin 2] [Fin 1; Fin 1]
        with Ok m => Some m | Raise _ => None end) = Some PInf.
Proof.
  split.
  - apply (@C6_mape_undefined_when_an_actual_is_zero
             persistence_libs [Fin 0; Fin 2] [Fin 1; Fin 1]).
    + reflexivity.
    + exists 0%nat, 0%Q. split; reflexivity.
  - vm_compute. reflexivity.
Defined.

(** ** The batch comparison *)

Lemma batch_assets (L : libraries) : forall data s rows s',
  batch_train_all_assets L data s = (Ok rows, s') ->
  map Asset rows = map fst data.
Proof.
  induction data as [|[name df] rest IH]; intros s rows s' H; simpl in H.
  - inversion H; reflexivity.
  - apply bind_Ok in H as (r & s1 & _ & H).
    apply bind_Ok in H as (rows' & s2 & Hrest & H).
    inversion H; subst. simpl. f_equal. eauto.
Qed.

Lemma best_model_rule (r : metrics_row) : winner_rule r (best_model r).
Proof.
  unfold winner_rule, best_model.
  destruct (flt (ARIMA_MAE r) (LSTM_MAE r)) eqn:E; repeat split; auto.
  - intro H. apply flt_asym in H. congruence.
  - intro H. apply flt_irrefl_feq in H. congruence.
  - discriminate.
Qed.

(** C1 (counterexample): with no modelling library installed both forecasters
    fall back, both MAE values are 0, and the row is labelled LSTM, not
    ARIMA. *)
Lemma C1_tie_is_labelled_LSTM :
  fst (compare no_libs [("BTC"%string, one_day)] ModelTrainer_init)
    = Ok (CompareTable [(all_zero_row "BTC", "LSTM"%string)])
  /\ feq (ARIMA_MAE (all_zero_row "BTC")) (LSTM_MAE (all_zero_row "BTC"))
  /\ "LSTM"%string <> "ARIMA"%string.
Proof.
  split; [vm_compute; reflexivity|]. split; [reflexivity | discriminate].
Qed.

(** C1 (as the code has it): the comparison page has one row per asset, in the order
    of the universe; a row is labelled ARIMA when its ARIMA MAE is strictly
    below its LSTM MAE and LSTM otherwise, equal MAE values included. *)
Theorem C1_winner_is_strictly_lower_MAE_ties_to_LSTM :
  forall (L : libraries) (all_data : universe) (s : trainer)
         (table : list (metrics_row * string)),
    fst (compare L all_data s) = Ok (CompareTable table) ->
    map (fun rw => Asset (fst rw)) table = map fst all_data /\
    Forall (fun rw => winner_rule (fst rw) (snd rw)) table.
Proof.
  intros L all_data s table H. unfold compare in H.
  destruct all_data as [|a rest]; [discriminate|].
  remember (a :: rest) as data.
  destruct (bind _ _ s) as [o s'] eqn:E. simpl in H. subst o.
  apply bind_Ok in E as (rows & s1 & Hb & Hr).
  inversion Hr; subst table; clear Hr.
  split.
  - rewrite map_map. simpl. eapply batch_assets; eauto.
  - apply Forall_forall. intros rw Hin.
    apply in_map_iff in Hin as [r [<- _]]. simpl. apply best_model_rule.
Qed.

Lemma C1_witness :
  map (fun rw => Asset (fst rw)) [(all_zero_row "BTC", "LSTM"%string)]
    = map fst [("BTC"%string, one_day)] /\
  Forall (fun rw => winner_rule (fst rw) (snd rw))
         [(all_zero_row "BTC", "LSTM"%string)].
Proof.
  apply (@C1_winner_is_strictly_lower_MAE_ties_to_LSTM
           no_libs [("BTC"%string, one_day)] ModelTrainer_init).
  vm_compute. reflexivity.
Defined.

(** ** The scaler as shared state *)

Lemma respects_ret {A} (a : A) : respects (ret a).
Proof. intros s1 s2 H; simpl; auto. Qed.

Lemma respects_raise {A} (e : exn) : respects (@raise A e).
Proof. intros s1 s2 H; simpl; auto. Qed.

Lemma respects_lift {A} (o : outcome A) : respects (lift o).
Proof. intros s1 s2 H; simpl; auto. Qed.

Lemma respects_log (e : event) : respects (log e).
Proof. intros s1 s2 H; simpl; auto. Qed.




Lemma respects_inverse_transform (xs : list fval) :
  respects (scaler_inverse_transform xs).
Proof.
  intros s1 s2 H. unfold scaler_inverse_transform. rewrite H.
  destruct (scaler s2) eqn:E; simpl.
  - destruct (check_array_allow_nan xs); simpl; split; congruence.
  - split; congruence.
Qed.

Create HintDb scaler.

#[local] Hint Resolve respects_ret respects_raise respects_lift respects_log
  respects_inverse_transform : scaler.







(** ** numpy.linspace on finite endpoints *)


Lemma length_set_last (y : list fval) (v : fval) :
  length (set_last y v) = length y.
Proof.
  destruct y as [|x y]; [reflexivity|]. unfold set_last.
  rewrite length_app, removelast_firstn_len, length_firstn. simpl. lia.
Qed.






Lemma np_linspace_length (start stop : fval) (num : nat) :
  length (np_linspace start stop num) = num.
Proof.
  unfold np_linspace, np_arange.
  repeat match goal with
         | |- context [if ?c then _ else _] => destruct c
         end;
    rewrite ?length_set_last, ?length_map, length_seq; reflexivity.
Qed.




(** One point: the grid is [0 * delta + start]. *)
Lemma np_linspace_one (a b : Q) :
  np_linspace (Fin a) (Fin b) 1 = [Fin (0 * (b + - a) + a)%Q].
Proof. reflexivity. Qed.


(** ** The fallback branch *)

Lemma fallback_Ok {H : Type} (df : frame) (forecast_steps : nat) (c : fval) s :
  iloc_last (closes df) = Ok c ->
  @fallback H df forecast_steps s
  = (Ok (np_linspace c (fmul c (Fin (105 # 100))) forecast_steps,
         zero_metrics, None), s).
Proof. intro Hc. unfold fallback, bind, lift, ret. rewrite Hc. reflexivity. Qed.

Lemma fallback_empty {H : Type} (forecast_steps : nat) s :
  @fallback H [] forecast_steps s = (Raise IndexError, s).
Proof. reflexivity. Qed.

Lemma iloc_last_Ok_nonempty {A} (xs : list A) (x : A) :
  iloc_last xs = Ok x -> xs <> [].
Proof. destruct xs; simpl; congruence. Qed.

Lemma iloc_last_nonempty {A} (xs : list A) :
  xs <> [] -> exists x, iloc_last xs = Ok x.
Proof. destruct xs; [congruence | simpl; eauto]. Qed.



Lemma train_arima_fallback (L : libraries) df forecast_steps s e s' :
  train_arima_body L df forecast_steps s = (Raise e, s') ->
  train_arima L df forecast_steps s = fallback df forecast_steps s'.
Proof. intro H. unfold train_arima, try_except. rewrite H. reflexivity. Qed.

Lemma train_lstm_fallback (L : libraries) df forecast_steps lookback s e s' :
  train_lstm_body L df forecast_steps lookback s = (Raise e, s') ->
  train_lstm L df forecast_steps lookback s = fallback df forecast_steps s'.
Proof. intro H. unfold train_lstm, try_except. rewrite H. reflexivity. Qed.




(** ** The roll-forward loop and the length of the forecasts *)

Lemma roll_forward_length (L : libraries) (model : net L) (lookback : nat) :
  forall steps last_sequence forecast out,
    roll_forward L model lookback steps last_sequence forecast = Ok out ->
    length out = (length forecast + steps)%nat.
Proof.
  induction steps as [|steps IH]; intros last_sequence forecast out H;
    simpl in H.
  - inversion H; subst. lia.
  - destruct (negb (length last_sequence =? lookback)%nat); [discriminate|].
    apply obind_Ok in H as (next_pred & _ & H).
    destruct next_pred as [|p rest]; [discriminate|].
    apply IH in H. rewrite length_app in H. simpl in H. lia.
Qed.

Ltac peel_bind H :=
  let a := fresh "a" in
  let t := fresh "t" in
  let Ha := fresh "H" in
  apply bind_Ok in H; destruct H as (a & t & Ha & H).

Lemma train_lstm_body_Ok_length (L : libraries) df forecast_steps lookback
      s fc m mdl s' :
  train_lstm_body L df forecast_steps lookback s = (Ok (fc, m, mdl), s') ->
  length fc = forecast_steps /\ mdl <> None.
Proof.
  unfold train_lstm_body.
  destruct (negb (HAS_LSTM L)); [discriminate|].
  intro H. peel_bind H.
  destruct (prepare_lstm_data (firstn _ a) lookback) as [X_train y_train].
  destruct (prepare_lstm_data (skipn _ a) lookback) as [X_test y_test].
  do 10 peel_bind H.
  inversion H; subst; clear H.
  match goal with
  | Hr : lift (roll_forward _ _ _ _ _ _) _ = _ |- _ =>
      apply lift_Ok in Hr; destruct Hr as [Hr _];
      apply roll_forward_length in Hr
  end.
  match goal with
  | Hi : scaler_inverse_transform ?xs _ = (Ok fc, _) |- _ =>
      apply scaler_inverse_transform_Ok in Hi; destruct Hi as (_ & Hlen & _)
  end.
  split; [simpl in *; lia | discriminate].
Qed.

Lemma train_arima_body_Ok_model (L : libraries) df forecast_steps
      s fc m mdl s' :
  train_arima_body L df forecast_steps s = (Ok (fc, m, mdl), s') ->
  mdl <> None.
Proof.
  unfold train_arima_body.
  destruct (negb (HAS_ARIMA L)); [discriminate|].
  intro H. do 6 peel_bind H. inversion H; subst. discriminate.
Qed.




(** ** Short holdouts in the sequence forecaster *)

Lemma prepare_lstm_data_short (data : list fval) (lookback : nat) :
  (length data <= lookback)%nat ->
  prepare_lstm_data data lookback = ([], []).
Proof.
  intro H. unfold prepare_lstm_data.
  replace (length data - lookback)%nat with 0%nat by lia. reflexivity.
Qed.

Lemma prepare_lstm_data_windows (data : list fval) (lookback : nat) :
  length (fst (prepare_lstm_data data lookback)) = (length data - lookback)%nat.
Proof. unfold prepare_lstm_data. simpl. rewrite length_map, length_seq. reflexivity. Qed.

(** At the default lookback of 60 the holdout is too short exactly for the
    series of fewer than 301 points. *)
Lemma short_holdout_default_lookback (n : nat) :
  (n - split_point n <= 60)%nat <-> (n < 301)%nat.
Proof.
  unfold split_point.
  pose proof (Nat.div_mod_eq (n * 8) 10) as H.
  pose proof (Nat.mod_upper_bound (n * 8) 10 ltac:(lia)) as Hm.
  lia.
Qed.

(** With a holdout no longer than the lookback the [try] block stops at the
    reshape of the empty window array, or earlier: no Keras model is fit. *)
Lemma train_lstm_body_short_holdout (L : libraries) df forecast_steps lookback s :
  (length df - split_point (length df) <= lookback)%nat ->
  exists e s',
    train_lstm_body L df forecast_steps lookback s = (Raise e, s') /\
    calls s' = calls s /\
    (HAS_LSTM L = true -> is_ok (minmax_fit L (closes df)) = true ->
     e = IndexError).
Proof.
  intro Hshort. unfold train_lstm_body.
  destruct (HAS_LSTM L).
  2:{ do 2 eexists. split; [reflexivity|]. split; [reflexivity | discriminate]. }
  change (negb true) with false. cbv iota. unfold bind at 1.
  destruct (scaler_fit_transform L (closes df) s) as [[scaled|e] s1] eqn:E.
  - apply scaler_fit_transform_Ok in E as (Hlen & Hcalls & p & Hp & _).
    unfold closes in Hlen. rewrite length_map in Hlen.
    rewrite (@prepare_lstm_data_short (skipn _ scaled) lookback)
      by (rewrite length_skipn, Hlen; exact Hshort).
    destruct (prepare_lstm_data (firstn _ scaled) lookback) as [X_train y_train].
    unfold bind, lift. destruct (shape1 X_train) eqn:ES; simpl.
    + do 2 eexists. split; [reflexivity|]. split; auto.
    + unfold shape1 in ES. destruct X_train; inversion ES; subst.
      do 2 eexists. split; [reflexivity|]. split; auto.
  - apply scaler_fit_transform_Raise in E as [Hcalls Hfit].
    do 2 eexists. split; [reflexivity|]. split; auto.
    intros _ Hok. rewrite Hfit in Hok. discriminate.
Qed.

(** C7 (counterexample): 100 closes, every library installed, the default
    lookback.  The [try] block raises IndexError; Keras was never called and
    the metric computation, which can only raise ValueError, was not
    reached. *)
Lemma C7_reshape_raises_before_the_model_is_built :
  (length (ramp 100) - split_point (length (ramp 100)) <= 60)%nat /\
  fst (train_lstm_body persistence_libs (ramp 100) 30 60 ModelTrainer_init)
    = Raise IndexError /\
  calls (snd (train_lstm_body persistence_libs (ramp 100) 30 60 ModelTrainer_init))
    = [] /\
  (forall actual predicted,
      calculate_metrics persistence_libs actual predicted <> Raise IndexError).
Proof.
  split; [vm_compute; lia|].
  split; [vm_compute; reflexivity|].
  split; [vm_compute; reflexivity|].
  intros actual predicted H.
  apply calculate_metrics_raises_ValueError in H. discriminate.
Qed.

(** C7 (as the code has it): for a non-empty series whose holdout slice is not longer
    than the lookback, the sequence forecaster builds zero holdout windows;
    its [try] block raises before any Keras model is fit (an IndexError from
    the reshape of the empty window array, when TensorFlow is there and the
    scaler fit succeeds), and the call returns the straight-line fallback
    with zero metrics and no model. *)
Theorem C7_short_holdout_always_falls_back :
  forall (L : libraries) (df : frame) (h lookback : nat) (s : trainer) (c : fval),
    iloc_last (closes df) = Ok c ->
    (length df - split_point (length df) <= lookback)%nat ->
    (forall scaled, length scaled = length df ->
       fst (prepare_lstm_data (skipn (split_point (length scaled)) scaled)
                              lookback) = []) /\
    (exists e s',
       train_lstm_body L df h lookback s = (Raise e, s') /\
       calls s' = calls s /\
       (HAS_LSTM L = true -> is_ok (minmax_fit L (closes df)) = true ->
        e = IndexError) /\
       train_lstm L df h lookback s
       = (Ok (np_linspace c (fmul c (Fin (105 # 100))) h, zero_metrics, None),
          s')).
Proof.
  intros L df h lookback s c Hlast Hshort. split.
  - intros scaled Hlen. rewrite prepare_lstm_data_short; [reflexivity|].
    rewrite length_skipn, Hlen. exact Hshort.
  - destruct (@train_lstm_body_short_holdout L df h lookback s Hshort)
      as (e & s' & Hbody & Hcalls & He).
    exists e, s'. repeat split; auto.
    rewrite (train_lstm_fallback _ _ _ _ _ Hbody).
    apply fallback_Ok. exact Hlast.
Qed.

Lemma C7_witness :
  (forall scaled, length scaled = length (ramp 100) ->
     fst (prepare_lstm_data (skipn (split_point (length scaled)) scaled) 60)
     = []) /\
  (exists e s',
     train_lstm_body persistence_libs (ramp 100) 30 60 ModelTrainer_init
       = (Raise e, s') /\
     calls s' = calls ModelTrainer_init /\
     (HAS_LSTM persistence_libs = true ->
      is_ok (minmax_fit persistence_libs (closes (ramp 100))) = true ->
      e = IndexError) /\
     train_lstm persistence_libs (ramp 100) 30 60 ModelTrainer_init
     = (Ok (np_linspace (Fin 199) (fmul (Fin 199) (Fin (105 # 100))) 30,
            zero_metrics, None),
        s')).
Proof.
  apply (@C7_short_holdout_always_falls_back
           persistence_libs (ramp 100) 30 60 ModelTrainer_init (Fin 199)).
  - vm_compute. reflexivity.
  - vm_compute. lia.
Defined.

(** ** The autoregressive forecaster *)

Lemma select_order_Ok (L : libraries) train_data o s s' :
  (if HAS_AUTO_ARIMA L
   then log (CallAutoArima train_data) ;;; lift (auto_arima L train_data)
   else ret (5, 1, 0)%nat) s = (Ok o, s') ->
  selected_order L train_data o.
Proof.
  unfold selected_order. destruct (HAS_AUTO_ARIMA L); intro H.
  - peel_bind H. apply lift_Ok in H as [H _]. exact H.
  - inversion H; reflexivity.
Qed.

Lemma select_order_run (L : libraries) train_data o s :
  selected_order L train_data o ->
  exists s',
    (if HAS_AUTO_ARIMA L
     then log (CallAutoArima train_data) ;;; lift (auto_arima L train_data)
     else ret (5, 1, 0)%nat) s = (Ok o, s').
Proof.
  unfold selected_order. destruct (HAS_AUTO_ARIMA L); intro H.
  - unfold bind, log, lift. rewrite H. eauto.
  - subst o. unfold ret. eauto.
Qed.

(** C3: [train_arima] returns a fitted model exactly when statsmodels is there
    and every step of the [try] block succeeds, and then: the order was
    selected on the first [int(0.8 * n)] closes only, the model was fit with
    that order on all [n] closes, the forecast is that model's [h]-step
    forecast, and the metrics compare that same model's predictions over
    the index range [int(0.8 * n) .. n - 1] with the last closes. *)
Theorem C3_train_arima_selects_on_train_fits_on_all :
  forall (L : libraries) (df : frame) (h : nat) (s : trainer)
         (fc : list fval) (m : metrics) (mdl : arima_model L),
    let data := closes df in
    let n := length data in
    let k := (n * 8 / 10)%nat in
    fst (train_arima L df h s) = Ok (fc, m, Some mdl)
    <->
    (HAS_ARIMA L = true /\
     exists (o : order) (test_predictions : list fval),
       selected_order L (firstn k data) o /\
       arima_fit L data o = Ok mdl /\
       arima_forecast L mdl h = Ok fc /\
       arima_predict L mdl (Z.of_nat k) (Z.of_nat n - 1) = Ok test_predictions /\
       calculate_metrics L (skipn k data) test_predictions = Ok m).
Proof.
  intros L df h s fc m mdl data n k. split.
  - unfold train_arima, try_except.
    destruct (train_arima_body L df h s) as [[r|e] s1] eqn:E; simpl.
    + intro Hr. inversion Hr; subst r; clear Hr.
      unfold train_arima_body in E.
      destruct (HAS_ARIMA L); [|discriminate]. split; [reflexivity|].
      change (negb true) with false in E. cbv iota zeta in E.
      peel_bind E. apply select_order_Ok in H.
      do 5 peel_bind E. inversion E; subst; clear E.
      repeat match goal with
             | Hl : lift _ _ = (Ok _, _) |- _ =>
                 apply lift_Ok in Hl; destruct Hl as [Hl _]
             end.
      exists a. eexists. repeat split; eauto.
    + unfold fallback, bind, lift, ret.
      destruct (iloc_last (closes df)); simpl; discriminate.
  - intros [HA (o & preds & Ho & Hfit & Hfc & Hpred & Hm)].
    unfold train_arima, try_except, train_arima_body.
    rewrite HA. change (negb true) with false. cbv iota zeta.
    fold data. fold n. change (split_point n) with k.
    destruct (@select_order_run L (firstn k data) o s Ho) as [s1 Hs].
    unfold bind at 1. rewrite Hs.
    unfold bind, log, lift, ret. rewrite Hfit, Hfc, Hpred, Hm. reflexivity.
Qed.

(** On ten closes with every library installed: the order search sees the
    first eight, the fit all ten, and the metrics the last two. *)
Example train_arima_on_ten_closes :
  train_arima persistence_libs (ramp 10) 3 ModelTrainer_init
  = (Ok ([Fin 109; Fin 109; Fin 109],
         {| MAE := Fin (100 # 100); RMSE := Fin (100 # 100);
            MAPE := Fin (92 # 100) |},
         Some (closes (ramp 10))),
     {| scaler := None;
        calls := [CallAutoArima (firstn 8 (closes (ramp 10)));
                  CallArimaFit (closes (ramp 10)) (1, 1, 1)%nat] |}).
Proof. vm_compute. reflexivity. Qed.

(** ** Invalid inputs *)

Lemma length_calls_app (s : trainer) (evs : list event) :
  evs <> [] -> (length (calls s) < length (calls s ++ evs))%nat.
Proof.
  intro H. rewrite length_app. destruct evs; [congruence | simpl; lia].
Qed.

(** On an empty frame the [try] block of [train_arima] cannot succeed: at the
    latest sklearn rejects the empty holdout.  With statsmodels installed a
    fitting call has been made by then. *)
Lemma train_arima_body_empty (L : libraries) (h : nat) (s : trainer) :
  exists e s',
    train_arima_body L [] h s = (Raise e, s') /\
    (HAS_ARIMA L = true -> (length (calls s) < length (calls s'))%nat).
Proof.
  unfold train_arima_body. destruct (HAS_ARIMA L).
  2:{ do 2 eexists. split; [reflexivity | discriminate]. }
  change (negb true) with false. cbv iota zeta.
  change (closes []) with (@nil fval).
  change (split_point (length (@nil fval))) with 0%nat.
  change (firstn 0 (@nil fval)) with (@nil fval).
  change (skipn 0 (@nil fval)) with (@nil fval).
  unfold bind, log, lift, ret.
  destruct (HAS_AUTO_ARIMA L).
  - destruct (auto_arima L []) as [o|]; simpl.
    + destruct (arima_fit L [] o) as [f|]; simpl.
      * destruct (arima_forecast L f h); simpl.
        -- destruct (arima_predict L f _ _); simpl.
           ++ rewrite calculate_metrics_empty. do 2 eexists.
              split; [reflexivity|]. intros _. simpl. rewrite !length_app. simpl. lia.
           ++ do 2 eexists. split; [reflexivity|]. intros _. simpl.
              rewrite !length_app. simpl. lia.
        -- do 2 eexists. split; [reflexivity|]. intros _. simpl.
           rewrite !length_app. simpl. lia.
      * do 2 eexists. split; [reflexivity|]. intros _. simpl.
        rewrite !length_app. simpl. lia.
    + do 2 eexists. split; [reflexivity|]. intros _. simpl.
      rewrite !length_app. simpl. lia.
  - destruct (arima_fit L [] (5, 1, 0)%nat) as [f|]; simpl.
    + destruct (arima_forecast L f h); simpl.
      * destruct (arima_predict L f _ _); simpl.
        -- rewrite calculate_metrics_empty. do 2 eexists.
           split; [reflexivity|]. intros _. simpl. rewrite !length_app. simpl. lia.
        -- do 2 eexists. split; [reflexivity|]. intros _. simpl.
           rewrite !length_app. simpl. lia.
      * do 2 eexists. split; [reflexivity|]. intros _. simpl.
        rewrite !length_app. simpl. lia.
    + do 2 eexists. split; [reflexivity|]. intros _. simpl.
      rewrite !length_app. simpl. lia.
Qed.

Lemma train_arima_empty (L : libraries) (h : nat) (s : trainer) :
  exists s',
    train_arima L [] h s = (Raise IndexError, s') /\
    (HAS_ARIMA L = true -> (length (calls s) < length (calls s'))%nat).
Proof.
  destruct (train_arima_body_empty L h s) as (e & s' & Hbody & Hcalls).
  exists s'. split; auto.
  rewrite (train_arima_fallback _ _ _ _ Hbody). apply fallback_empty.
Qed.

Lemma train_and_forecast_empty (L : libraries) asset_name (h : nat) (s : trainer) :
  exists s',
    train_and_forecast L [] asset_name h s = (Raise IndexError, s') /\
    (HAS_ARIMA L = true -> (length (calls s) < length (calls s'))%nat).
Proof.
  destruct (train_arima_empty L h s) as (s' & Harima & Hcalls).
  exists s'. split; auto.
  unfold train_and_forecast, bind at 1. rewrite Harima. reflexivity.
Qed.

(** C2 (counterexample): statsmodels installed, an empty series.
    [train_and_forecast] does raise, but only after [ARIMA(data, (5,1,0)).fit()]
    has been called on the empty data. *)
Lemma C2_empty_series_reaches_the_fit :
  train_and_forecast fixed_order_libs [] "BTC" 30 ModelTrainer_init
  = (Raise IndexError,
     {| scaler := None; calls := [CallArimaFit [] (5, 1, 0)%nat] |})
  /\ calls (snd (train_and_forecast fixed_order_libs [] "BTC" 30
                                    ModelTrainer_init)) <> [].
Proof. split; [vm_compute; reflexivity | vm_compute; discriminate]. Qed.

(** C2 (as the code has it): [train_and_forecast] validates nothing itself.  An empty
    series goes to [train_arima], whose [try] block fails and whose fallback
    then raises IndexError on [iloc[-1]]; that error leaves
    [train_and_forecast], after a fitting call whenever statsmodels is
    installed.  An unknown asset never reaches it: [download_forecast]
    answers "Invalid asset" and trains nothing. *)
Theorem C2_empty_series_raises_IndexError_from_the_fallback :
  forall (L : libraries) (asset_name : string) (h : nat) (s : trainer),
    fst (train_and_forecast L [] asset_name h s) = Raise IndexError /\
    (HAS_ARIMA L = true ->
     (length (calls s)
      < length (calls (snd (train_and_forecast L [] asset_name h s))))%nat) /\
    (forall all_data : universe,
        lookup asset_name all_data = None ->
        download_forecast L all_data (Some asset_name) s
        = (Ok (BadRequest "Invalid asset"), s)).
Proof.
  intros L asset_name h s.
  destruct (train_and_forecast_empty L asset_name h s) as (s' & Hrun & Hcalls).
  rewrite Hrun. simpl.
  split; [reflexivity|]. split; [exact Hcalls|].
  intros all_data Hlookup. unfold download_forecast. rewrite Hlookup.
  destruct (String.eqb asset_name ""); reflexivity.
Qed.

(** ** The exported forecast *)

Lemma zip3_dates : forall (ds : list Z) (a b : list fval),
  length a = length ds -> length b = length ds ->
  map csv_Date (zip3 ds a b) = ds /\
  map ARIMA_Forecast (zip3 ds a b) = a /\
  map LSTM_Forecast (zip3 ds a b) = b.
Proof.
  induction ds as [|d ds IH]; intros a b Ha Hb.
  - destruct a, b; try discriminate. simpl. auto.
  - destruct a as [|x a], b as [|y b]; try discriminate.
    simpl in Ha, Hb. injection Ha as Ha. injection Hb as Hb.
    destruct (IH a b Ha Hb) as (H1 & H2 & H3).
    simpl. rewrite H1, H2, H3. auto.
Qed.

Lemma forecast_frame_Ok (ds : list Z) (a b : list fval) rows :
  forecast_frame ds a b = Ok rows ->
  length a = length ds /\ length b = length ds /\ rows = zip3 ds a b.
Proof.
  unfold forecast_frame.
  destruct (length a =? length ds)%nat eqn:Ea; [|discriminate].
  destruct (length b =? length ds)%nat eqn:Eb; [|discriminate].
  apply Nat.eqb_eq in Ea, Eb. intro H; inversion H. auto.
Qed.

Lemma forecast_dates_30 (last_date : Z) :
  tl (date_range last_date 31)
  = map (fun k => (last_date + Z.of_nat k)%Z) (seq 1 30).
Proof. reflexivity. Qed.

Lemma date_range_consecutive (d : Z) : forall (len start : nat),
  consecutive_after (d + Z.of_nat start)%Z
    (map (fun k => (d + Z.of_nat k)%Z) (seq (S start) len)).
Proof.
  induction len as [|len IH]; intro start; cbn [seq map consecutive_after]; auto.
  split; [lia|]. apply (IH (S start)).
Qed.

Lemma january_2024 :
  map civil_from_days
      (map (fun k => (days_from_civil 2024 1 1 + Z.of_nat k)%Z) (seq 1 30))
  = map (fun d => (2024, 1, Z.of_nat d)%Z) (seq 2 30).
Proof. vm_compute. reflexivity. Qed.

(** C9: the CSV of [download_forecast] has exactly 30 rows; their dates are
    the 30 consecutive days that follow the last date of the series, so for
    a series ending on 2024-01-01 they run from 2024-01-02 to 2024-01-31.
    The file is produced whenever training returns 30 values per model. *)
Theorem C9_forecast_csv_has_the_30_next_days :
  forall (L : libraries) (all_data : universe) (name : string) (df : frame)
         (s : trainer),
    name <> ""%string ->
    lookup name all_data = Some df ->
    (forall fname rows s',
        download_forecast L all_data (Some name) s = (Ok (CsvFile fname rows), s') ->
        exists last_date,
          iloc_last (map Date df) = Ok last_date /\
          length rows = 30%nat /\
          map csv_Date rows
          = map (fun k => (last_date + Z.of_nat k)%Z) (seq 1 30) /\
          consecutive_after last_date (map csv_Date rows) /\
          (last_date = days_from_civil 2024 1 1 ->
           map (fun r => civil_from_days (csv_Date r)) rows
           = map (fun d => (2024, 1, Z.of_nat d)%Z) (seq 2 30))) /\
    (forall r s',
        train_and_forecast L df name 30 s = (Ok r, s') ->
        length (arima_forecast_ r) = 30%nat ->
        length (lstm_forecast r) = 30%nat ->
        exists rows,
          download_forecast L all_data (Some name) s
          = (Ok (CsvFile (name ++ "_forecast.csv") rows), s') /\
          map ARIMA_Forecast rows = arima_forecast_ r /\
          map LSTM_Forecast rows = lstm_forecast r).
Proof.
  intros L all_data name df s Hname Hlookup.
  assert (Hne : String.eqb name "" = false) by (apply String.eqb_neq; exact Hname).
  split.
  - intros fname rows s' H. unfold download_forecast in H.
    rewrite Hne, Hlookup in H.
    peel_bind H. peel_bind H. peel_bind H.
    apply lift_Ok in H1 as [Hlast _]. apply lift_Ok in H2 as [Hframe _].
    inversion H; subst; clear H.
    apply forecast_frame_Ok in Hframe as (Ha & Hb & ->).
    rewrite forecast_dates_30 in *. rewrite length_map, length_seq in Ha, Hb.
    destruct (@zip3_dates (map (fun k => (a0 + Z.of_nat k)%Z) (seq 1 30))
                          (arima_forecast_ a) (lstm_forecast a))
      as (Hd & _ & _); rewrite ?length_map, ?length_seq; auto.
    exists a0. split; [exact Hlast|]. split.
    { rewrite <- (length_map csv_Date), Hd, length_map, length_seq. reflexivity. }
    split; [exact Hd|]. split.
    { rewrite Hd. replace a0 with (a0 + Z.of_nat 0)%Z at 1 by (simpl; lia).
      apply date_range_consecutive. }
    intros ->. rewrite <- (map_map csv_Date civil_from_days), Hd.
    apply january_2024.
  - intros r s' Hrun Ha Hb. unfold download_forecast.
    rewrite Hne, Hlookup. unfold bind at 1. rewrite Hrun.
    assert (Hdf : df <> []).
    { intros ->. destruct (train_and_forecast_empty L name 30 s) as (t & Ht & _).
      rewrite Ht in Hrun. discriminate. }
    destruct (@iloc_last_nonempty _ (map Date df)) as [d Hd].
    { destruct df; [congruence | discriminate]. }
    unfold bind, lift, ret. rewrite Hd. unfold forecast_frame.
    rewrite forecast_dates_30, length_map, length_seq, Ha, Hb.
    cbn [Nat.eqb andb].
    eexists. split; [reflexivity|].
    eapply proj2, zip3_dates; rewrite length_map, length_seq; auto.
Qed.

Lemma C9_witness :
  exists rows,
    download_forecast no_libs [("BTC"%string, one_day)] (Some "BTC"%string)
                      ModelTrainer_init
    = (Ok (CsvFile "BTC_forecast.csv" rows), ModelTrainer_init) /\
    length rows = 30%nat /\
    map (fun r => civil_from_days (csv_Date r)) rows
    = map (fun d => (2024, 1, Z.of_nat d)%Z) (seq 2 30).
Proof.
  destruct (@C9_forecast_csv_has_the_30_next_days
              no_libs [("BTC"%string, one_day)] "BTC"%string one_day
              ModelTrainer_init)
    as [Hdates Hfile].
  - discriminate.
  - reflexivity.
  - edestruct Hfile as (rows & Hrows & _);
      [vm_compute; reflexivity | reflexivity | reflexivity |].
    destruct (Hdates _ _ _ Hrows) as (last_date & Hlast & Hlen & _ & _ & Hjan).
    exists rows. split; [exact Hrows|]. split; [exact Hlen|].
    apply Hjan. simpl in Hlast. inversion Hlast. reflexivity.
Defined.

(** ** Derived columns *)




Lemma length_ffill_from : forall (xs : list fval) (prev : fval),
  length (ffill_from prev xs) = length xs.
Proof. induction xs; intros; simpl; auto. Qed.

Lemma last_In {A} (xs : list A) (d : A) : xs <> [] -> In (last xs d) xs.
Proof.
  induction xs as [|x xs IH]; [congruence|]. intros _.
  destruct xs as [|y ys]; [left; reflexivity|].
  right. apply IH. discriminate.
Qed.




Lemma priced_Fin (x : fval) :
  priced x = true -> exists q, x = Fin q /\ ~ (q == 0)%Q.
Proof.
  destruct x; simpl; try discriminate. intro H. exists q. split; auto.
  intro E. apply Qeq_bool_iff in E. rewrite E in H. discriminate.
Qed.

Lemma length_map2 {A B C} (f : A -> B -> C) : forall xs ys,
  length (map2 f xs ys) = Nat.min (length xs) (length ys).
Proof.
  induction xs as [|x xs IH]; intros [|y ys]; simpl; auto.
Qed.











Lemma priced_finite (x : fval) : priced x = true -> is_finite x = true.
Proof. destruct x; simpl; congruence. Qed.








(* ================================================================== *)
(** * Further properties *)

(** ** The orchestrator on frames with data *)

Lemma train_arima_returns (L : libraries) df h s c :
  iloc_last (closes df) = Ok c ->
  exists fc m mdl s', train_arima L df h s = (Ok (fc, m, mdl), s').
Proof.
  intro Hc. unfold train_arima, try_except.
  destruct (train_arima_body L df h s) as [[[[fc m] mdl]|e] s'].
  - eauto.
  - rewrite (fallback_Ok _ _ _ Hc). eauto.
Qed.

Lemma train_lstm_returns (L : libraries) df h lookback s c :
  iloc_last (closes df) = Ok c ->
  exists fc m mdl s',
    train_lstm L df h lookback s = (Ok (fc, m, mdl), s') /\ length fc = h.
Proof.
  intro Hc. unfold train_lstm, try_except.
  destruct (train_lstm_body L df h lookback s) as [[[[fc m] mdl]|e] s'] eqn:E.
  - apply train_lstm_body_Ok_length in E as [Hlen _]. eauto 6.
  - rewrite (fallback_Ok _ _ _ Hc). do 4 eexists. split; [reflexivity|].
    apply np_linspace_length.
Qed.

Lemma closes_last (df : frame) : df <> [] -> exists c, iloc_last (closes df) = Ok c.
Proof.
  intro H. apply iloc_last_nonempty. destruct df; [congruence | discriminate].
Qed.

Lemma train_and_forecast_returns (L : libraries) df asset_name h s :
  df <> [] ->
  exists r s',
    train_and_forecast L df asset_name h s = (Ok r, s') /\
    asset r = asset_name /\
    length (lstm_forecast r) = h.
Proof.
  intro Hdf. destruct (closes_last Hdf) as [c Hc].
  destruct (@train_arima_returns L df h s c Hc) as (fa & ma & mda & s1 & Ha).
  destruct (@train_lstm_returns L df h 60 s1 c Hc) as (fl & ml & mdl & s2 & Hl & Hlen).
  unfold train_and_forecast, bind, ret. rewrite Ha, Hl.
  do 2 eexists. split; [reflexivity|]. simpl. auto.
Qed.

(** X1: on a frame with at least one row [train_and_forecast] never raises,
    whatever the modelling libraries do: every failure inside a forecaster
    ends in its fallback.  The bundle carries the asset name and an LSTM
    forecast of exactly [forecast_steps] values. *)
Theorem train_and_forecast_never_raises_on_data :
  forall (L : libraries) (df : frame) (asset_name : string)
         (forecast_steps : nat) (s : trainer),
    df <> [] ->
    exists r s',
      train_and_forecast L df asset_name forecast_steps s = (Ok r, s') /\
      asset r = asset_name /\
      length (lstm_forecast r) = forecast_steps.
Proof.
  intros L df asset_name forecast_steps s Hdf.
  apply train_and_forecast_returns. exact Hdf.
Qed.

Lemma train_and_forecast_never_raises_on_data_witness :
  exists r s',
    train_and_forecast persistence_libs (ramp 100) "BTC" 30 ModelTrainer_init
      = (Ok r, s') /\
    asset r = "BTC"%string /\ length (lstm_forecast r) = 30%nat.
Proof.
  apply (@train_and_forecast_never_raises_on_data
           persistence_libs (ramp 100) "BTC" 30 ModelTrainer_init).
  discriminate.
Defined.

Lemma train_arima_no_handle (L : libraries) df h s fc m s' :
  train_arima L df h s = (Ok (fc, m, None), s') ->
  m = zero_metrics /\
  exists c, iloc_last (closes df) = Ok c /\
            fc = np_linspace c (fmul c (Fin (105 # 100))) h.
Proof.
  unfold train_arima, try_except.
  destruct (train_arima_body L df h s) as [[[[fc' m'] mdl]|e] s1] eqn:E.
  - intro H. inversion H; subst. apply train_arima_body_Ok_model in E.
    contradiction.
  - unfold fallback, bind, lift, ret.
    destruct (iloc_last (closes df)) as [c|]; [|discriminate].
    intro H. inversion H; subst. eauto.
Qed.

Lemma train_lstm_no_handle (L : libraries) df h lookback s fc m s' :
  train_lstm L df h lookback s = (Ok (fc, m, None), s') ->
  m = zero_metrics /\
  exists c, iloc_last (closes df) = Ok c /\
            fc = np_linspace c (fmul c (Fin (105 # 100))) h.
Proof.
  unfold train_lstm, try_except.
  destruct (train_lstm_body L df h lookback s) as [[[[fc' m'] mdl]|e] s1] eqn:E.
  - intro H. inversion H; subst. apply train_lstm_body_Ok_length in E as [_ E].
    contradiction.
  - unfold fallback, bind, lift, ret.
    destruct (iloc_last (closes df)) as [c|]; [|discriminate].
    intro H. inversion H; subst. eauto.
Qed.

(** X2: in a bundle of [train_and_forecast], a model handle that is [None]
    always comes with all-zero metrics and with the straight line from the
    last close to 1.05 times it as forecast, for either model. *)
Theorem no_model_handle_means_fallback :
  forall (L : libraries) (df : frame) (asset_name : string) (h : nat)
         (s s' : trainer) (r : results L),
    train_and_forecast L df asset_name h s = (Ok r, s') ->
    (fst (models r) = None ->
     arima_metrics r = zero_metrics /\
     exists c, iloc_last (closes df) = Ok c /\
               arima_forecast_ r = np_linspace c (fmul c (Fin (105 # 100))) h) /\
    (snd (models r) = None ->
     lstm_metrics r = zero_metrics /\
     exists c, iloc_last (closes df) = Ok c /\
               lstm_forecast r = np_linspace c (fmul c (Fin (105 # 100))) h).
Proof.
  intros L df asset_name h s s' r H. unfold train_and_forecast in H.
  apply bind_Ok in H as ([[fa ma] mda] & s1 & Ha & H).
  apply bind_Ok in H as ([[fl ml] mdl] & s2 & Hl & H).
  inversion H; subst; clear H. simpl.
  split; intros ->.
  - eapply train_arima_no_handle; eauto.
  - eapply train_lstm_no_handle; eauto.
Qed.

Lemma no_model_handle_means_fallback_witness :
  exists r s',
    train_and_forecast persistence_libs (ramp 10) "BTC" 30 ModelTrainer_init
      = (Ok r, s') /\
    snd (models r) = None /\
    lstm_metrics r = zero_metrics /\
    lstm_forecast r
    = np_linspace (Fin 109) (fmul (Fin 109) (Fin (105 # 100))) 30.
Proof.
  destruct (@train_and_forecast_returns persistence_libs (ramp 10) "BTC" 30
              ModelTrainer_init ltac:(discriminate)) as (r & s' & Hrun & _).
  exists r, s'. split; [exact Hrun|].
  assert (Hnone : match fst (train_and_forecast persistence_libs (ramp 10)
                                                "BTC" 30 ModelTrainer_init) with
                  | Ok r0 => snd (models r0)
                  | Raise _ => None
                  end = None) by (vm_compute; reflexivity).
  rewrite Hrun in Hnone. simpl in Hnone.
  split; [exact Hnone|].
  destruct (@no_model_handle_means_fallback _ _ _ _ _ _ _ Hrun) as [_ Hl].
  destruct (Hl Hnone) as (Hm & c & Hc & Hfc).
  split; [exact Hm|]. vm_compute in Hc. inversion Hc; subst c. exact Hfc.
Defined.

(** ** The batch over the universe *)

Lemma batch_returns (L : libraries) : forall data s,
  all_nonempty data ->
  exists rows s',
    batch_train_all_assets L data s = (Ok rows, s') /\
    map Asset rows = map fst data.
Proof.
  induction data as [|[name df] rest IH]; intros s Hall.
  - exists [], s. split; reflexivity.
  - inversion Hall as [|? ? Hdf Hrest]; subst. simpl in Hdf.
    destruct (@train_and_forecast_returns L df name 30 s Hdf)
      as (r & s1 & Hrun & _).
    destruct (IH s1 Hrest) as (rows & s2 & Hrows & Hnames).
    cbn [batch_train_all_assets]. unfold bind at 1. rewrite Hrun.
    unfold bind at 1. rewrite Hrows. unfold ret.
    do 2 eexists. split; [reflexivity|]. simpl. rewrite Hnames. reflexivity.
Qed.

Lemma batch_raises_on_empty_frame (L : libraries) : forall data s,
  Exists (fun kv => snd kv = []) data ->
  fst (batch_train_all_assets L data s) = Raise IndexError.
Proof.
  induction data as [|[name df] rest IH]; intros s Hex.
  - inversion Hex.
  - cbn [batch_train_all_assets]. unfold bind at 1.
    destruct df as [|r0 df].
    + destruct (train_and_forecast_empty L name 30 s) as (s1 & -> & _).
      reflexivity.
    + inversion Hex as [? ? Hhd|? ? Htl]; subst; [discriminate Hhd|].
      destruct (@train_and_forecast_returns L (r0 :: df) name 30 s
                  ltac:(discriminate)) as (r & s1 & -> & _).
      unfold bind at 1. specialize (IH s1 Htl).
      destruct (batch_train_all_assets L rest s1) as [[rows|e] s2];
        simpl in IH; [discriminate|]. inversion IH. reflexivity.
Qed.

(** X3: [batch_train_all_assets] is all or nothing.  When every frame of the
    universe has a row it returns one metrics row per asset, in the order of
    the universe; when some frame is empty it raises IndexError and returns
    no row at all, also for the assets that have data. *)
Theorem batch_is_all_or_nothing :
  forall (L : libraries) (data_dict : universe) (s : trainer),
    (all_nonempty data_dict ->
     exists rows s',
       batch_train_all_assets L data_dict s = (Ok rows, s') /\
       map Asset rows = map fst data_dict) /\
    (Exists (fun kv => snd kv = []) data_dict ->
     fst (batch_train_all_assets L data_dict s) = Raise IndexError).
Proof.
  intros L data_dict s. split.
  - apply batch_returns.
  - apply batch_raises_on_empty_frame.
Qed.

(** Two assets, the second without rows: no row for the first either. *)
Example batch_with_one_empty_frame :
  fst (batch_train_all_assets persistence_libs
         [("BTC"%string, ramp 100); ("ETH"%string, [])] ModelTrainer_init)
  = Raise IndexError.
Proof. vm_compute. reflexivity. Qed.

(** ** Without the modelling libraries *)

Lemma train_arima_without_statsmodels (L : libraries) df h s c :
  HAS_ARIMA L = false ->
  iloc_last (closes df) = Ok c ->
  train_arima L df h s
  = (Ok (np_linspace c (fmul c (Fin (105 # 100))) h, zero_metrics, None), s).
Proof.
  intros HA Hc. unfold train_arima, try_except, train_arima_body.
  rewrite HA. simpl. apply fallback_Ok. exact Hc.
Qed.

Lemma train_lstm_without_tensorflow (L : libraries) df h lookback s c :
  HAS_LSTM L = false ->
  iloc_last (closes df) = Ok c ->
  train_lstm L df h lookback s
  = (Ok (np_linspace c (fmul c (Fin (105 # 100))) h, zero_metrics, None), s).
Proof.
  intros HA Hc. unfold train_lstm, try_except, train_lstm_body.
  rewrite HA. simpl. apply fallback_Ok. exact Hc.
Qed.

Lemma batch_without_libraries (L : libraries) :
  HAS_ARIMA L = false -> HAS_LSTM L = false ->
  forall data s,
    all_nonempty data ->
    batch_train_all_assets L data s
    = (Ok (map (fun kv => all_zero_row (fst kv)) data), s).
Proof.
  intros HA HL. induction data as [|[name df] rest IH]; intros s Hall.
  - reflexivity.
  - inversion Hall as [|? ? Hdf Hrest]; subst. simpl in Hdf.
    destruct (closes_last Hdf) as [c Hc].
    cbn [batch_train_all_assets]. unfold bind at 1.
    unfold train_and_forecast, bind at 1.
    rewrite (@train_arima_without_statsmodels L df 30 s c HA Hc).
    unfold bind at 1.
    rewrite (@train_lstm_without_tensorflow L df 30 60 s c HL Hc).
    unfold ret at 1. unfold bind at 1. rewrite (IH s Hrest). reflexivity.
Qed.

(** X4: when neither statsmodels nor TensorFlow is installed, the comparison
    of a universe of frames with data shows every asset with all metrics at
    zero and labels every one of them LSTM; the trainer is left as it was. *)
Theorem compare_without_libraries_labels_all_LSTM :
  forall (L : libraries) (all_data : universe) (s : trainer),
    HAS_ARIMA L = false ->
    HAS_LSTM L = false ->
    all_data <> [] ->
    all_nonempty all_data ->
    compare L all_data s
    = (Ok (CompareTable
             (map (fun kv => (all_zero_row (fst kv), "LSTM"%string)) all_data)),
       s).
Proof.
  intros L all_data s HA HL Hne Hall. unfold compare.
  destruct all_data as [|kv rest]; [congruence|].
  unfold bind. rewrite (@batch_without_libraries L HA HL _ s Hall).
  unfold ret. rewrite map_map. reflexivity.
Qed.

Lemma compare_without_libraries_labels_all_LSTM_witness :
  compare no_libs [("BTC"%string, one_day); ("ETH"%string, ramp 5)]
          ModelTrainer_init
  = (Ok (CompareTable [(all_zero_row "BTC", "LSTM"%string);
                       (all_zero_row "ETH", "LSTM"%string)]),
     ModelTrainer_init).
Proof.
  apply (@compare_without_libraries_labels_all_LSTM
           no_libs [("BTC"%string, one_day); ("ETH"%string, ramp 5)]
           ModelTrainer_init).
  - reflexivity.
  - reflexivity.
  - discriminate.
  - repeat constructor; discriminate.
Defined.

(** ** What the forecasters do to the scaler *)

Lemma keeps_scaler_ret {A} (a : A) : keeps_scaler (ret a).
Proof. intro s. reflexivity. Qed.

Lemma keeps_scaler_raise {A} (e : exn) : keeps_scaler (@raise A e).
Proof. intro s. reflexivity. Qed.

Lemma keeps_scaler_lift {A} (o : outcome A) : keeps_scaler (lift o).
Proof. intro s. reflexivity. Qed.

Lemma keeps_scaler_log (e : event) : keeps_scaler (log e).
Proof. intro s. reflexivity. Qed.

Lemma keeps_scaler_inverse_transform (xs : list fval) :
  keeps_scaler (scaler_inverse_transform xs).
Proof.
  intro s. unfold scaler_inverse_transform.
  destruct (scaler s) eqn:E; [destruct (check_array_allow_nan xs)|];
    simpl; congruence.
Qed.

Lemma keeps_scaler_bind {A B} (m : M A) (k : A -> M B) :
  keeps_scaler m -> (forall a, keeps_scaler (k a)) -> keeps_scaler (bind m k).
Proof.
  intros Hm Hk s. unfold bind. specialize (Hm s).
  destruct (m s) as [[a|e] s1]; simpl in *.
  - rewrite Hk. exact Hm.
  - exact Hm.
Qed.

Lemma keeps_scaler_try_except {A} (body : M A) (handler : exn -> M A) :
  keeps_scaler body -> (forall e, keeps_scaler (handler e)) ->
  keeps_scaler (try_except body handler).
Proof.
  intros Hb Hh s. unfold try_except. specialize (Hb s).
  destruct (body s) as [[a|e] s1]; simpl in *.
  - exact Hb.
  - rewrite Hh. exact Hb.
Qed.

Lemma keeps_scaler_fallback {H : Type} df h : keeps_scaler (@fallback H df h).
Proof.
  unfold fallback. apply keeps_scaler_bind.
  - apply keeps_scaler_lift.
  - intro a. apply keeps_scaler_ret.
Qed.

Create HintDb keeps.

#[local] Hint Resolve keeps_scaler_ret keeps_scaler_raise keeps_scaler_lift
  keeps_scaler_log keeps_scaler_inverse_transform : keeps.

Ltac keeps_chain :=
  repeat first
    [ apply keeps_scaler_bind; [solve [auto with keeps] | intro]
    | solve [auto with keeps] ].

Lemma keeps_scaler_train_arima (L : libraries) df h :
  keeps_scaler (train_arima L df h).
Proof.
  unfold train_arima. apply keeps_scaler_try_except.
  - unfold train_arima_body.
    destruct (negb (HAS_ARIMA L)); [apply keeps_scaler_raise|].
    cbv zeta. apply keeps_scaler_bind.
    + destruct (HAS_AUTO_ARIMA L); keeps_chain.
    + intro o. keeps_chain.
  - intro e. apply keeps_scaler_fallback.
Qed.

Lemma train_lstm_scaler (L : libraries) df h lookback s :
  scaler (snd (train_lstm L df h lookback s))
  = if HAS_LSTM L
    then match minmax_fit L (closes df) with
         | Ok p => Some p
         | Raise _ => None
         end
    else scaler s.
Proof.
  unfold train_lstm.
  assert (Hbody : scaler (snd (train_lstm_body L df h lookback s))
                  = if HAS_LSTM L
                    then match minmax_fit L (closes df) with
                         | Ok p => Some p
                         | Raise _ => None
                         end
                    else scaler s).
  { unfold train_lstm_body. destruct (HAS_LSTM L); [|reflexivity].
    change (negb true) with false. cbv iota. unfold bind at 1.
    unfold scaler_fit_transform at 1.
    destruct (minmax_fit L (closes df)) as [p|e]; [|reflexivity].
    set (s1 := {| scaler := Some p; calls := calls s |}).
    change (Some p) with (scaler s1).
    generalize (minmax_transform p (closes df)). intro scaled.
    destruct (prepare_lstm_data (firstn _ scaled) lookback) as [X_train y_train].
    destruct (prepare_lstm_data (skipn _ scaled) lookback) as [X_test y_test].
    match goal with
    | |- scaler (snd (?m s1)) = _ => assert (Hk : keeps_scaler m) by keeps_chain
    end.
    apply Hk. }
  unfold try_except.
  destruct (train_lstm_body L df h lookback s) as [[r|e] s1]; simpl in *.
  - exact Hbody.
  - rewrite keeps_scaler_fallback. exact Hbody.
Qed.

(** X5: [train_arima] never touches [self.scaler].  [train_lstm] leaves it
    fit on the closes of the frame it was given (unfitted when that fit
    fails), however the call ends, and leaves it alone when TensorFlow is
    missing. *)
Theorem forecasters_effect_on_the_scaler :
  forall (L : libraries) (df : frame) (h lookback : nat) (s : trainer),
    scaler (snd (train_arima L df h s)) = scaler s /\
    scaler (snd (train_lstm L df h lookback s))
    = if HAS_LSTM L
      then match minmax_fit L (closes df) with
           | Ok p => Some p
           | Raise _ => None
           end
      else scaler s.
Proof.
  intros L df h lookback s. split.
  - apply keeps_scaler_train_arima.
  - apply train_lstm_scaler.
Qed.

(** ** Windows and targets of the sequence forecaster *)

Lemma nth_map_seq_from {A} (f : nat -> A) (a n i : nat) (d : A) :
  (i < n)%nat -> nth i (map f (seq a n)) d = f (a + i)%nat.
Proof.
  intro H. rewrite (nth_indep _ d (f 0%nat)) by (rewrite length_map, length_seq; lia).
  rewrite map_nth. rewrite seq_nth by lia. reflexivity.
Qed.

Lemma firstn_snoc_nth {A} (d : A) : forall (l : list A) (n : nat),
  (n < length l)%nat -> firstn (S n) l = firstn n l ++ [nth n l d].
Proof.
  induction l as [|x l IH]; intros n H; simpl in H; [lia|].
  destruct n as [|n]; [reflexivity|].
  rewrite !firstn_cons. rewrite (IH n) by lia. reflexivity.
Qed.

Lemma prepare_lstm_data_targets (data : list fval) (lookback : nat) :
  snd (prepare_lstm_data data lookback) = skipn lookback data.
Proof.
  unfold prepare_lstm_data. cbn [snd].
  apply (nth_ext _ _ NaN NaN).
  - rewrite length_map, length_seq, length_skipn. reflexivity.
  - intros n Hn. rewrite length_map, length_seq in Hn.
    rewrite nth_map_seq_from by exact Hn. rewrite nth_skipn. reflexivity.
Qed.

(** X6: [prepare_lstm_data] builds [len(data) - lookback] windows and as many
    targets (none when the data is not longer than the lookback); window [k]
    holds exactly [lookback] values, and followed by target [k] it is the
    contiguous stretch [data[k : k + lookback + 1]]. *)
Theorem prepare_lstm_data_windows_precede_their_target :
  forall (data : list fval) (lookback : nat),
    length (fst (prepare_lstm_data data lookback)) = (length data - lookback)%nat /\
    length (snd (prepare_lstm_data data lookback)) = (length data - lookback)%nat /\
    forall k, (k < length data - lookback)%nat ->
      length (nth k (fst (prepare_lstm_data data lookback)) []) = lookback /\
      nth k (fst (prepare_lstm_data data lookback)) []
        ++ [nth k (snd (prepare_lstm_data data lookback)) NaN]
      = slice k (k + lookback + 1) data.
Proof.
  intros data lookback.
  split; [apply prepare_lstm_data_windows|].
  split; [rewrite prepare_lstm_data_targets, length_skipn; reflexivity|].
  intros k Hk. rewrite prepare_lstm_data_targets.
  unfold prepare_lstm_data. cbn [fst].
  rewrite nth_map_seq_from by exact Hk.
  unfold slice.
  replace (lookback + k - lookback)%nat with k by lia.
  replace (lookback + k - k)%nat with lookback by lia.
  replace (k + lookback + 1 - k)%nat with (S lookback) by lia.
  split.
  - rewrite length_firstn, length_skipn. lia.
  - rewrite (firstn_snoc_nth NaN) by (rewrite length_skipn; lia).
    f_equal. f_equal. rewrite !nth_skipn. f_equal. lia.
Qed.

(** X7: the targets of the two calls in [train_lstm].  The training targets
    are the [train_size] scaled values from index [lookback] on, so they
    reach [lookback] points into the holdout; the test targets are the values
    from index [train_size + lookback] on; together they are every value
    after the first [lookback], each once. *)
Theorem train_lstm_targets_split_the_series :
  forall (scaled_data : list fval) (lookback : nat),
    snd (prepare_lstm_data
           (firstn (split_point (length scaled_data) + lookback) scaled_data)
           lookback)
    = firstn (split_point (length scaled_data)) (skipn lookback scaled_data) /\
    snd (prepare_lstm_data
           (skipn (split_point (length scaled_data)) scaled_data) lookback)
    = skipn (split_point (length scaled_data) + lookback) scaled_data /\
    snd (prepare_lstm_data
           (firstn (split_point (length scaled_data) + lookback) scaled_data)
           lookback)
    ++ snd (prepare_lstm_data
              (skipn (split_point (length scaled_data)) scaled_data) lookback)
    = skipn lookback scaled_data.
Proof.
  intros scaled_data lookback.
  set (ts := split_point (length scaled_data)).
  rewrite !prepare_lstm_data_targets.
  assert (H1 : skipn lookback (firstn (ts + lookback) scaled_data)
               = firstn ts (skipn lookback scaled_data)).
  { rewrite skipn_firstn_comm. f_equal. lia. }
  assert (H2 : skipn lookback (skipn ts scaled_data)
               = skipn (ts + lookback) scaled_data).
  { rewrite skipn_skipn. f_equal. lia. }
  rewrite H1, H2. split; [reflexivity|]. split; [reflexivity|].
  rewrite <- (skipn_skipn ts lookback). apply firstn_skipn.
Qed.

(** ** The roll-forward loop *)

Lemma roll_forward_self_fed (L : libraries) (model : net L) (lookback : nat)
      (f : list fval -> fval) :
  (1 <= lookback)%nat ->
  (forall w, keras_predict L model [w] = Ok [f w]) ->
  forall steps w forecast,
    length w = lookback ->
    exists out,
      roll_forward L model lookback steps w forecast = Ok (forecast ++ out) /\
      length out = steps /\
      forall k, (k < steps)%nat ->
        nth k out NaN = f (skipn k (w ++ firstn k out)).
Proof.
  intros Hlb Hpred. induction steps as [|steps IH]; intros w forecast Hw.
  - exists []. simpl. rewrite app_nil_r. repeat split; auto. intros k Hk. lia.
  - cbn [roll_forward]. rewrite Hw, Nat.eqb_refl. cbn [negb obind].
    rewrite Hpred. cbn [obind].
    destruct w as [|a t]; [simpl in Hw; lia|].
    destruct (IH (tl (a :: t) ++ [f (a :: t)]) (forecast ++ [f (a :: t)]))
      as (out & Hrun & Hlen & Hnth).
    { cbn [tl]. rewrite length_app. simpl in *. lia. }
    exists (f (a :: t) :: out). split.
    { rewrite Hrun. rewrite <- app_assoc. reflexivity. }
    split; [simpl; lia|].
    intros [|k] Hk.
    + cbn [nth firstn skipn]. rewrite app_nil_r. reflexivity.
    + cbn [nth]. rewrite Hnth by lia. f_equal.
      cbn [tl firstn]. change ((a :: t) ++ f (a :: t) :: firstn k out)
        with (a :: (t ++ f (a :: t) :: firstn k out)).
      cbn [skipn]. rewrite <- app_assoc. reflexivity.
Qed.

(** X8: the roll-forward loop of [train_lstm], for a model that answers one
    window with one value and a lookback of at least one.  Seeded with
    [lookback] values it makes exactly [steps] predictions and never raises;
    prediction [k] is the model's answer to the last [lookback] values of
    the seed followed by the predictions before it. *)
Theorem roll_forward_feeds_on_its_own_predictions :
  forall (L : libraries) (model : net L) (lookback steps : nat)
         (f : list fval -> fval) (seed : list fval),
    (1 <= lookback)%nat ->
    (forall w, keras_predict L model [w] = Ok [f w]) ->
    length seed = lookback ->
    exists out,
      roll_forward L model lookback steps seed [] = Ok out /\
      length out = steps /\
      forall k, (k < steps)%nat ->
        nth k out NaN = f (skipn k (seed ++ firstn k out)) /\
        length (skipn k (seed ++ firstn k out)) = lookback.
Proof.
  intros L model lookback steps f seed Hlb Hpred Hseed.
  destruct (@roll_forward_self_fed L model lookback f Hlb Hpred steps seed []
              Hseed) as (out & Hrun & Hlen & Hnth).
  exists out. split; [exact Hrun|]. split; [exact Hlen|].
  intros k Hk. split; [apply Hnth; exact Hk|].
  rewrite length_skipn, length_app, length_firstn. lia.
Qed.

Lemma roll_forward_feeds_on_its_own_predictions_witness :
  exists out,
    roll_forward persistence_libs tt 2 3 [Fin 1; Fin 2] [] = Ok out /\
    length out = 3%nat /\
    forall k, (k < 3)%nat ->
      nth k out NaN
      = last (skipn k ([Fin 1; Fin 2] ++ firstn k out)) NaN /\
      length (skipn k ([Fin 1; Fin 2] ++ firstn k out)) = 2%nat.
Proof.
  apply (@roll_forward_feeds_on_its_own_predictions
           persistence_libs tt 2 3 (fun w => last w NaN) [Fin 1; Fin 2]).
  - lia.
  - intro w. reflexivity.
  - reflexivity.
Defined.

(** ** Scaling there and back *)






(** ** Signs and zeros of the metrics *)

















Lemma feq_zero_fadd (x y : fval) :
  feq x fzero -> feq y fzero -> feq (fadd x y) fzero.
Proof.
  destruct x, y; simpl; try contradiction. intros Hx Hy. rewrite Hx, Hy.
  reflexivity.
Qed.

Lemma feq_zero_sum (xs : list fval) : forall acc,
  feq acc fzero -> Forall (fun x => feq x fzero) xs ->
  feq (fold_left fadd xs acc) fzero.
Proof.
  induction xs as [|x xs IH]; intros acc Hacc Hall; simpl; auto.
  inversion Hall; subst. apply IH; auto using feq_zero_fadd.
Qed.

Lemma feq_zero_mean (xs : list fval) :
  (0 < length xs)%nat -> Forall (fun x => feq x fzero) xs ->
  feq (np_mean xs) fzero.
Proof.
  intros Hlen Hall. unfold np_mean, np_sum, of_nat.
  pose proof (@feq_zero_sum xs fzero (Qeq_refl 0) Hall) as Hs.
  destruct (fold_left fadd xs fzero) as [q| | |]; simpl in Hs; try contradiction.
  simpl. rewrite (of_nat_pos Hlen). simpl. rewrite Hs.
  unfold Qdiv. ring.
Qed.

Lemma feq_zero_round2 (x : fval) : feq x fzero -> feq (round2 x) fzero.
Proof.
  destruct x as [q| | |]; simpl; try contradiction. intro H.
  assert (H100 : (q * 100 == 0)%Q) by (rewrite H; reflexivity).
  unfold round_half_even.
  assert (Hf : Qfloor (q * 100) = 0%Z) by (rewrite H100; reflexivity).
  rewrite Hf.
  assert (Hc : (q * 100 - inject_Z 0 ?= 1 # 2)%Q = Lt).
  { apply Qlt_alt. rewrite H100. reflexivity. }
  rewrite Hc. reflexivity.
Qed.

Lemma feq_zero_times_100 (x : fval) :
  feq x fzero -> feq (fmul x (of_nat 100)) fzero.
Proof.
  destruct x as [q| | |]; simpl; try contradiction. intro H. rewrite H.
  reflexivity.
Qed.

Lemma perfect_absolute_errors : forall (xs : list fval),
  forallb is_finite xs = true ->
  Forall (fun x => feq x fzero) (map2 (fun t p => fabs (fsub p t)) xs xs).
Proof.
  induction xs as [|x xs IH]; intro H; simpl; auto.
  simpl in H. apply andb_prop in H as [Hx Hxs].
  constructor; [|apply IH; exact Hxs].
  destruct x as [a| | |]; try discriminate.
  change (Qabs (a + - a) == 0)%Q. rewrite Qplus_opp_r. reflexivity.
Qed.

Lemma perfect_percentage_errors : forall (xs : list fval),
  Forall (fun x => priced x = true) xs ->
  Forall (fun x => feq x fzero)
         (map fabs (map2 (fun a p => fdiv (fsub a p) a) xs xs)).
Proof.
  induction xs as [|x xs IH]; intro H; simpl; auto.
  inversion H as [|? ? Hx Hxs]; subst.
  constructor; [|apply IH; exact Hxs].
  destruct (priced_Fin _ Hx) as (a & -> & Ha).
  cbn [fsub fneg fadd fdiv].
  destruct (a ?= 0)%Q eqn:E.
  - apply Qeq_alt in E. contradiction.
  - change (Qabs ((a + - a) / a) == 0)%Q. rewrite Qplus_opp_r. reflexivity.
  - change (Qabs ((a + - a) / a) == 0)%Q. rewrite Qplus_opp_r. reflexivity.
Qed.

Lemma priced_all_finite (xs : list fval) :
  Forall (fun x => priced x = true) xs -> forallb is_finite xs = true.
Proof.
  intro H. apply forallb_forall. rewrite Forall_forall in H.
  intros x Hx. apply priced_finite, H, Hx.
Qed.

(** X11: zero metrics are not the mark of the fallback alone.  For predictions
    equal to a non-empty holdout of finite, non-zero closes
    [calculate_metrics] returns, with an MAE of zero and a MAPE of zero, as
    the fallback reports. *)
Theorem perfect_predictions_score_zero :
  forall (L : libraries) (actual : list fval),
    actual <> [] ->
    Forall (fun x => priced x = true) actual ->
    exists m,
      calculate_metrics L actual actual = Ok m /\
      feq (MAE m) (MAE zero_metrics) /\
      feq (MAPE m) (MAPE zero_metrics).
Proof.
  intros L actual Hne Hall.
  pose proof (priced_all_finite Hall) as Hfin.
  assert (Hlen : (0 < length actual)%nat)
    by (destruct actual; [congruence | simpl; lia]).
  unfold calculate_metrics, mean_absolute_error, mean_squared_error,
    check_reg_targets.
  rewrite Nat.eqb_refl. cbn [negb].
  replace (length actual =? 0)%nat with false
    by (symmetry; apply Nat.eqb_neq; lia).
  rewrite Hfin. cbn [andb negb obind].
  eexists. split; [reflexivity|]. cbn [MAE MAPE zero_metrics]. split.
  - apply feq_zero_round2, feq_zero_mean.
    + rewrite length_map2. lia.
    + apply perfect_absolute_errors. exact Hfin.
  - apply feq_zero_round2, feq_zero_times_100, feq_zero_mean.
    + rewrite length_map, length_map2. lia.
    + apply perfect_percentage_errors. exact Hall.
Qed.

Lemma perfect_predictions_score_zero_witness :
  exists m,
    calculate_metrics persistence_libs [Fin 100; Fin 101] [Fin 100; Fin 101]
      = Ok m /\
    feq (MAE m) (MAE zero_metrics) /\
    feq (MAPE m) (MAPE zero_metrics).
Proof.
  apply (@perfect_predictions_score_zero persistence_libs [Fin 100; Fin 101]).
  - discriminate.
  - repeat constructor.
Defined.

(** ** The two stores of the loader *)

Lemma lookup_dict_set (k k' : string) (v : frame) : forall (d : universe),
  lookup k (dict_set k' v d) = if String.eqb k k' then Some v else lookup k d.
Proof.
  induction d as [|[k0 v0] rest IH]; cbn [dict_set lookup].
  - reflexivity.
  - destruct (String.eqb k' k0) eqn:E0; cbn [lookup].
    + apply String.eqb_eq in E0. subst k0.
      destruct (String.eqb k k'); reflexivity.
    + rewrite IH. destruct (String.eqb k k0) eqn:E1; [|reflexivity].
      destruct (String.eqb k k') eqn:E2; [|reflexivity].
      apply String.eqb_eq in E1, E2. subst. rewrite String.eqb_refl in E0.
      discriminate.
Qed.

Lemma lookup_app (k : string) : forall (a b : universe),
  lookup k (a ++ b)
  = match lookup k a with Some v => Some v | None => lookup k b end.
Proof.
  induction a as [|[k0 v0] a IH]; intro b; cbn [app lookup]; [reflexivity|].
  destruct (String.eqb k k0); [reflexivity | apply IH].
Qed.

Lemma lookup_dict_merge (k : string) : forall (b a : universe),
  lookup k (dict_merge a b)
  = match lookup k (rev b) with Some v => Some v | None => lookup k a end.
Proof.
  unfold dict_merge. induction b as [|[k1 v1] b IH]; intro a; cbn [fold_left rev].
  - reflexivity.
  - rewrite IH, lookup_app, lookup_dict_set. cbn [fst snd lookup].
    destruct (lookup k (rev b)); [reflexivity|].
    destruct (String.eqb k k1); reflexivity.
Qed.

Lemma lookup_absent (k : string) : forall (d : universe),
  ~ In k (map fst d) -> lookup k d = None.
Proof.
  induction d as [|[k0 v0] d IH]; intro H; cbn [lookup]; [reflexivity|].
  destruct (String.eqb k k0) eqn:E.
  - apply String.eqb_eq in E. subst. exfalso. apply H. left. reflexivity.
  - apply IH. intro Hin. apply H. right. exact Hin.
Qed.

Lemma lookup_rev (k : string) : forall (d : universe),
  NoDup (map fst d) -> lookup k (rev d) = lookup k d.
Proof.
  induction d as [|[k0 v0] d IH]; intro H; [reflexivity|].
  cbn [map fst] in H. inversion H as [|? ? Hnotin Hnodup]; subst.
  cbn [rev]. rewrite lookup_app, (IH Hnodup). cbn [lookup].
  destruct (String.eqb k k0) eqn:E.
  - apply String.eqb_eq in E. subst. rewrite lookup_absent by exact Hnotin.
    reflexivity.
  - destruct (lookup k d); reflexivity.
Qed.

(** X12: [get_data] against [get_all_data] (the [all_data] of the routes).
    The merged store holds for a name the stock frame if there is one and
    the crypto frame otherwise; [get_data] looks in the crypto store first.
    So both know the same names and agree on a name held by one store only,
    but for a name held by both [get_data] answers with the crypto frame
    while [all_data] holds the stock frame. *)
Theorem get_data_and_all_data :
  forall (self : DataLoader) (name : string),
    NoDup (map fst (stock_dfs self)) ->
    lookup name (get_all_data self)
    = match lookup name (stock_dfs self) with
      | Some df => Some df
      | None => lookup name (crypto_dfs self)
      end /\
    (fst (get_data self name) = None <-> lookup name (get_all_data self) = None) /\
    (lookup name (crypto_dfs self) = None \/ lookup name (stock_dfs self) = None ->
     fst (get_data self name) = lookup name (get_all_data self)) /\
    (forall c st,
        lookup name (crypto_dfs self) = Some c ->
        lookup name (stock_dfs self) = Some st ->
        get_data self name = (Some c, Some "crypto"%string) /\
        lookup name (get_all_data self) = Some st).
Proof.
  intros self name Hnodup.
  assert (Hmerge : lookup name (get_all_data self)
                   = match lookup name (stock_dfs self) with
                     | Some df => Some df
                     | None => lookup name (crypto_dfs self)
                     end).
  { unfold get_all_data. rewrite lookup_dict_merge.
    rewrite lookup_rev by exact Hnodup. reflexivity. }
  split; [exact Hmerge|]. rewrite Hmerge. unfold get_data.
  destruct (lookup name (crypto_dfs self)) as [c|],
           (lookup name (stock_dfs self)) as [st|]; cbn [fst].
  - split; [split; discriminate|]. split.
    + intros [H|H]; discriminate.
    + intros c' st' Hc Hst. inversion Hc; inversion Hst; subst. auto.
  - split; [split; discriminate|]. split; [reflexivity|]. intros; discriminate.
  - split; [split; discriminate|]. split; [reflexivity|]. intros; discriminate.
  - split; [split; reflexivity|]. split; [reflexivity|]. intros; discriminate.
Qed.

Lemma get_data_and_all_data_witness :
  get_data {| crypto_dfs := [("X"%string, one_day)];
              stock_dfs := [("X"%string, ramp 2)] |} "X"
  = (Some one_day, Some "crypto"%string) /\
  lookup "X" (get_all_data {| crypto_dfs := [("X"%string, one_day)];
                              stock_dfs := [("X"%string, ramp 2)] |})
  = Some (ramp 2).
Proof.
  destruct (@get_data_and_all_data
              {| crypto_dfs := [("X"%string, one_day)];
                 stock_dfs := [("X"%string, ramp 2)] |} "X"%string)
    as (_ & _ & _ & Hboth).
  - repeat constructor. intros [].
  - apply Hboth; reflexivity.
Defined.

(** ** Asset names from file names *)

Lemma split_on_head (sep : ascii) : forall (s : string),
  exists segs, split_on sep s = before sep s :: segs.
Proof.
  induction s as [|c rest [segs IH]]; cbn [split_on before].
  - eauto.
  - destruct (Ascii.eqb c sep); [eauto|]. rewrite IH. eauto.
Qed.

Lemma split_on_no_separator (sep : ascii) : forall (s : string),
  has_char sep s = false -> split_on sep s = [s].
Proof.
  induction s as [|c rest IH]; cbn [split_on has_char]; [reflexivity|].
  intro H. apply orb_false_iff in H as [Hc Hrest].
  rewrite Hc, (IH Hrest). reflexivity.
Qed.

Lemma split_on_after_prefix (sep : ascii) (rest : string) : forall (p : string),
  has_char sep p = false ->
  split_on sep (p ++ String sep rest) = p :: split_on sep rest.
Proof.
  induction p as [|c p IH]; cbn [String.append split_on has_char]; intro H.
  - rewrite Ascii.eqb_refl. reflexivity.
  - apply orb_false_iff in H as [Hc Hp]. rewrite Hc, (IH Hp). reflexivity.
Qed.

Lemma stem_of_csv : forall (mid : string),
  before "." (before "_" (mid ++ ".csv")) = stem mid.
Proof.
  induction mid as [|c mid IH]; [reflexivity|].
  cbn [String.append before stem].
  destruct (Ascii.eqb c "_") eqn:E1; [reflexivity|].
  cbn [before orb]. destruct (Ascii.eqb c "."); [reflexivity|].
  rewrite IH. reflexivity.
Qed.

Lemma stem_identity : forall (mid : string),
  has_char "_" mid = false -> has_char "." mid = false -> stem mid = mid.
Proof.
  induction mid as [|c mid IH]; cbn [stem has_char]; [reflexivity|].
  intros H1 H2. apply orb_false_iff in H1 as [Hc1 H1], H2 as [Hc2 H2].
  rewrite Hc1, Hc2, (IH H1 H2). reflexivity.
Qed.

Lemma asset_name_of_glob (prefix mid : string) :
  has_char "_" prefix = false ->
  asset_name_of (prefix ++ String "_" (mid ++ ".csv")) = Ok (stem mid).
Proof.
  intro H. unfold asset_name_of. rewrite split_on_after_prefix by exact H.
  destruct (split_on_head "_" (mid ++ ".csv")) as [segs ->].
  destruct (split_on_head "." (before "_" (mid ++ ".csv"))) as [segs' ->].
  rewrite stem_of_csv. reflexivity.
Qed.

(** X13: the asset name [load_all_data] reads off a file name.  For a file
    that matches [crypto_*.csv] or [stock_*.csv] the expression never raises
    and gives the part matched by the star up to its first ["_"] or ["."]:
    the whole of it when it has neither, which is the round trip of the
    naming scheme.  On a base name without ["_"] it is an IndexError. *)
Theorem asset_name_is_the_stem_of_the_file_name :
  forall (mid : string),
    asset_name_of ("crypto_" ++ mid ++ ".csv") = Ok (stem mid) /\
    asset_name_of ("stock_" ++ mid ++ ".csv") = Ok (stem mid) /\
    (has_char "_" mid = false -> has_char "." mid = false -> stem mid = mid) /\
    (has_char "_" mid = false -> asset_name_of mid = Raise IndexError).
Proof.
  intro mid. split; [|split; [|split]].
  - apply (@asset_name_of_glob "crypto" mid). reflexivity.
  - apply (@asset_name_of_glob "stock" mid). reflexivity.
  - apply stem_identity.
  - intro H. unfold asset_name_of. rewrite split_on_no_separator by exact H.
    reflexivity.
Qed.

(** Two files of one stem: both are loaded under the name BTC. *)
Example asset_names_collide :
  asset_name_of "crypto_BTC.csv" = Ok "BTC"%string /\
  asset_name_of "crypto_BTC_USD.csv" = Ok "BTC"%string /\
  asset_name_of "crypto_BTC.2024.csv" = Ok "BTC"%string.
Proof. repeat split; reflexivity. Qed.

(** ** The date range of the loader *)

Lemma fold_min_spec : forall (ds : list Z) (d : Z),
  (fold_left Z.min ds d <= d)%Z /\
  (forall x, In x ds -> (fold_left Z.min ds d <= x)%Z) /\
  In (fold_left Z.min ds d) (d :: ds).
Proof.
  induction ds as [|y ds IH]; intro d; cbn [fold_left].
  - split; [lia|]. split; [intros x []|]. left; reflexivity.
  - destruct (IH (Z.min d y)) as (H1 & H2 & H3).
    split; [lia|]. split.
    + intros x [<-|Hx]; [lia | apply H2; exact Hx].
    + destruct H3 as [H3|H3].
      * rewrite <- H3. destruct (Z.min_spec d y) as [[_ E]|[_ E]]; rewrite E.
        -- left; reflexivity.
        -- right; left; reflexivity.
      * right; right; exact H3.
Qed.

Lemma fold_max_spec : forall (ds : list Z) (d : Z),
  (d <= fold_left Z.max ds d)%Z /\
  (forall x, In x ds -> (x <= fold_left Z.max ds d)%Z) /\
  In (fold_left Z.max ds d) (d :: ds).
Proof.
  induction ds as [|y ds IH]; intro d; cbn [fold_left].
  - split; [lia|]. split; [intros x []|]. left; reflexivity.
  - destruct (IH (Z.max d y)) as (H1 & H2 & H3).
    split; [lia|]. split.
    + intros x [<-|Hx]; [lia | apply H2; exact Hx].
    + destruct H3 as [H3|H3].
      * rewrite <- H3. destruct (Z.max_spec d y) as [[_ E]|[_ E]]; rewrite E.
        -- right; left; reflexivity.
        -- left; reflexivity.
      * right; right; exact H3.
Qed.

Lemma Date_min_spec (df : frame) :
  df <> [] ->
  exists m, Date_min df = Timestamp m /\
            (forall r, In r df -> (m <= Date r)%Z) /\
            (exists r, In r df /\ Date r = m).
Proof.
  intro H. destruct df as [|r0 df]; [congruence|]. unfold Date_min.
  cbn [map]. destruct (fold_min_spec (map Date df) (Date r0)) as (H1 & H2 & H3).
  eexists. split; [reflexivity|]. split.
  - intros r [<-|Hr]; [exact H1 | apply H2, in_map, Hr].
  - change (Date r0 :: map Date df) with (map Date (r0 :: df)) in H3.
    apply in_map_iff in H3 as (r & Hr & Hin). eauto.
Qed.

Lemma Date_max_spec (df : frame) :
  df <> [] ->
  exists m, Date_max df = Timestamp m /\
            (forall r, In r df -> (Date r <= m)%Z) /\
            (exists r, In r df /\ Date r = m).
Proof.
  intro H. destruct df as [|r0 df]; [congruence|]. unfold Date_max.
  cbn [map]. destruct (fold_max_spec (map Date df) (Date r0)) as (H1 & H2 & H3).
  eexists. split; [reflexivity|]. split.
  - intros r [<-|Hr]; [exact H1 | apply H2, in_map, Hr].
  - change (Date r0 :: map Date df) with (map Date (r0 :: df)) in H3.
    apply in_map_iff in H3 as (r & Hr & Hin). eauto.
Qed.

Lemma py_min_spec : forall (dfs : list frame) (b : Z),
  Forall (fun df => df <> []) dfs ->
  exists lo,
    py_min (Timestamp b) (map Date_min dfs) = Timestamp lo /\
    (lo <= b)%Z /\
    (forall df r, In df dfs -> In r df -> (lo <= Date r)%Z) /\
    (lo = b \/ exists df r, In df dfs /\ In r df /\ Date r = lo).
Proof.
  unfold py_min.
  induction dfs as [|df dfs IH]; intros b Hall; cbn [map fold_left].
  - exists b. split; [reflexivity|]. split; [lia|].
    split; [intros df r []|]. left; reflexivity.
  - inversion Hall as [|? ? Hdf Hrest]; subst.
    destruct (Date_min_spec Hdf) as (m & -> & Hle & r0 & Hr0 & Hm).
    cbn [date_lt]. destruct (m <? b)%Z eqn:E.
    + apply Z.ltb_lt in E. destruct (IH m Hrest) as (lo & -> & Hlo & Hall' & Hat).
      exists lo. split; [reflexivity|]. split; [lia|]. split.
      * intros df' r [<-|Hin] Hr; [specialize (Hle r Hr); lia | eauto].
      * right. destruct Hat as [->|(df' & r & Hin & Hr & E')].
        -- exists df, r0. split; [left; reflexivity | auto].
        -- exists df', r. split; [right; exact Hin | auto].
    + apply Z.ltb_ge in E. destruct (IH b Hrest) as (lo & -> & Hlo & Hall' & Hat).
      exists lo. split; [reflexivity|]. split; [lia|]. split.
      * intros df' r [<-|Hin] Hr; [specialize (Hle r Hr); lia | eauto].
      * destruct Hat as [->|(df' & r & Hin & Hr & E')]; [left; reflexivity|].
        right. exists df', r. split; [right; exact Hin | auto].
Qed.

Lemma py_max_spec : forall (dfs : list frame) (b : Z),
  Forall (fun df => df <> []) dfs ->
  exists hi,
    py_max (Timestamp b) (map Date_max dfs) = Timestamp hi /\
    (b <= hi)%Z /\
    (forall df r, In df dfs -> In r df -> (Date r <= hi)%Z) /\
    (hi = b \/ exists df r, In df dfs /\ In r df /\ Date r = hi).
Proof.
  unfold py_max.
  induction dfs as [|df dfs IH]; intros b Hall; cbn [map fold_left].
  - exists b. split; [reflexivity|]. split; [lia|].
    split; [intros df r []|]. left; reflexivity.
  - inversion Hall as [|? ? Hdf Hrest]; subst.
    destruct (Date_max_spec Hdf) as (m & -> & Hle & r0 & Hr0 & Hm).
    change (date_gt (Timestamp m) (Timestamp b)) with (b <? m)%Z.
    destruct (b <? m)%Z eqn:E.
    + apply Z.ltb_lt in E. destruct (IH m Hrest) as (hi & -> & Hhi & Hall' & Hat).
      exists hi. split; [reflexivity|]. split; [lia|]. split.
      * intros df' r [<-|Hin] Hr; [specialize (Hle r Hr); lia | eauto].
      * right. destruct Hat as [->|(df' & r & Hin & Hr & E')].
        -- exists df, r0. split; [left; reflexivity | auto].
        -- exists df', r. split; [right; exact Hin | auto].
    + apply Z.ltb_ge in E. destruct (IH b Hrest) as (hi & -> & Hhi & Hall' & Hat).
      exists hi. split; [reflexivity|]. split; [lia|]. split.
      * intros df' r [<-|Hin] Hr; [specialize (Hle r Hr); lia | eauto].
      * destruct Hat as [->|(df' & r & Hin & Hr & E')]; [left; reflexivity|].
        right. exists df', r. split; [right; exact Hin | auto].
Qed.

(** X14: [get_date_range] on stores whose frames all have rows, at least one
    frame in all: it returns two timestamps, the earliest and the latest
    date found in any frame, so every date of every frame lies between
    them.  With no frame at all it returns [(None, None)]. *)
Theorem get_date_range_bounds_every_date :
  forall (self : DataLoader),
    let all_dfs := map snd (crypto_dfs self) ++ map snd (stock_dfs self) in
    (all_dfs = [] -> get_date_range self = (PyNone, PyNone)) /\
    (all_dfs <> [] ->
     Forall (fun df => df <> []) all_dfs ->
     exists lo hi,
       get_date_range self = (Timestamp lo, Timestamp hi) /\
       (forall df r, In df all_dfs -> In r df -> (lo <= Date r <= hi)%Z) /\
       (exists df r, In df all_dfs /\ In r df /\ Date r = lo) /\
       (exists df r, In df all_dfs /\ In r df /\ Date r = hi)).
Proof.
  intros self all_dfs. unfold get_date_range. fold all_dfs. split.
  - intros ->. reflexivity.
  - intros Hne Hall. destruct all_dfs as [|df dfs]; [congruence|].
    inversion Hall as [|? ? Hdf Hrest]; subst.
    destruct (Date_min_spec Hdf) as (m & -> & Hmle & rm & Hrm & Hm).
    destruct (Date_max_spec Hdf) as (M & -> & HMle & rM & HrM & HM).
    destruct (py_min_spec m Hrest) as (lo & -> & Hlo & Hlo_all & Hlo_at).
    destruct (py_max_spec M Hrest) as (hi & -> & Hhi & Hhi_all & Hhi_at).
    exists lo, hi. split; [reflexivity|]. split; [|split].
    + intros df' r [<-|Hin] Hr.
      * specialize (Hmle r Hr). specialize (HMle r Hr). lia.
      * specialize (Hlo_all df' r Hin Hr). specialize (Hhi_all df' r Hin Hr). lia.
    + destruct Hlo_at as [->|(df' & r & Hin & Hr & E)].
      * exists df, rm. split; [left; reflexivity | auto].
      * exists df', r. split; [right; exact Hin | auto].
    + destruct Hhi_at as [->|(df' & r & Hin & Hr & E)].
      * exists df, rM. split; [left; reflexivity | auto].
      * exists df', r. split; [right; exact Hin | auto].
Qed.

(** A first frame without rows: its [NaT] is never replaced, whatever the
    other frames hold. *)
Example get_date_range_with_an_empty_first_frame :
  get_date_range {| crypto_dfs := [("BTC"%string, [])];
                    stock_dfs := [("AAPL"%string, ramp 3)] |}
  = (NaT, NaT).
Proof. reflexivity. Qed.

(** ** The summary of the comparison *)

Lemma best_model_label (r : metrics_row) :
  String.eqb (best_model r) "ARIMA" = flt (ARIMA_MAE r) (LSTM_MAE r) /\
  String.eqb (best_model r) "LSTM" = negb (flt (ARIMA_MAE r) (LSTM_MAE r)).
Proof.
  unfold best_model. destruct (flt (ARIMA_MAE r) (LSTM_MAE r)); split; reflexivity.
Qed.

Lemma best_model_counts : forall (rows : list metrics_row),
  (length (filter (fun rw : metrics_row * string => String.eqb (snd rw) "ARIMA")
                  (map (fun r => (r, best_model r)) rows))
   + length (filter (fun rw : metrics_row * string => String.eqb (snd rw) "LSTM")
                    (map (fun r => (r, best_model r)) rows))
   = length rows)%nat /\
  length (filter (fun rw : metrics_row * string => String.eqb (snd rw) "ARIMA")
                 (map (fun r => (r, best_model r)) rows))
  = length (filter (fun r => flt (ARIMA_MAE r) (LSTM_MAE r)) rows).
Proof.
  induction rows as [|r rows [IH1 IH2]]; [split; reflexivity|].
  cbn [map filter snd].
  destruct (best_model_label r) as [-> ->].
  destruct (flt (ARIMA_MAE r) (LSTM_MAE r)); cbn [negb length]; split; lia.
Qed.

Lemma compare_table (L : libraries) all_data s table :
  fst (compare L all_data s) = Ok (CompareTable table) ->
  exists rows, table = map (fun r => (r, best_model r)) rows /\
               length rows = length all_data.
Proof.
  unfold compare. destruct all_data as [|a rest]; [discriminate|].
  remember (a :: rest) as data.
  destruct (bind _ _ s) as [o s'] eqn:E. simpl. intro H. subst o.
  apply bind_Ok in E as (rows & s1 & Hb & Hr).
  inversion Hr; subst table. exists rows. split; [reflexivity|].
  apply batch_assets in Hb.
  rewrite <- (length_map Asset), Hb, length_map. reflexivity.
Qed.

(** X15: in the summary of the comparison page the ARIMA wins and the LSTM
    wins add up to the number of assets, which is the size of the universe;
    the ARIMA wins are the rows whose ARIMA MAE is strictly below their LSTM
    MAE, so every tie and every row with a NaN MAE counts for LSTM. *)
Theorem compare_summary_wins_add_up :
  forall (L : libraries) (all_data : universe) (s : trainer)
         (table : list (metrics_row * string)),
    fst (compare L all_data s) = Ok (CompareTable table) ->
    (arima_wins (compare_summary table) + lstm_wins (compare_summary table)
     = total_assets (compare_summary table))%nat /\
    total_assets (compare_summary table) = length all_data /\
    arima_wins (compare_summary table)
    = length (filter (fun rw => flt (ARIMA_MAE (fst rw)) (LSTM_MAE (fst rw)))
                     table).
Proof.
  intros L all_data s table H.
  destruct (compare_table _ _ _ H) as (rows & -> & Hlen).
  destruct (best_model_counts rows) as [Hsum Harima].
  unfold compare_summary.
  cbn [arima_wins lstm_wins total_assets].
  rewrite length_map. split; [exact Hsum|]. split; [exact Hlen|].
  rewrite Harima. clear.
  induction rows as [|r rows IH]; [reflexivity|].
  cbn [map filter fst]. destruct (flt (ARIMA_MAE r) (LSTM_MAE r)); cbn [length];
    rewrite IH; reflexivity.
Qed.

Lemma compare_summary_wins_add_up_witness :
  arima_wins (compare_summary [(all_zero_row "BTC", "LSTM"%string)]) = 0%nat /\
  lstm_wins (compare_summary [(all_zero_row "BTC", "LSTM"%string)]) = 1%nat.
Proof.
  destruct (@compare_summary_wins_add_up
              no_libs [("BTC"%string, one_day)] ModelTrainer_init
              [(all_zero_row "BTC", "LSTM"%string)])
    as (Hsum & Htotal & Harima).
  - vm_compute. reflexivity.
  - split; reflexivity.
Defined.

(** ** Filling the gaps of a column *)

Lemma ffill_from_keeps : forall (xs : list fval) (prev : fval) (i : nat),
  is_nan (nth i xs NaN) = false ->
  nth i (ffill_from prev xs) NaN = nth i xs NaN.
Proof.
  induction xs as [|x xs IH]; intros prev i H.
  - destruct i; discriminate.
  - destruct i as [|i]; cbn [nth ffill_from] in *.
    + rewrite H. reflexivity.
    + apply IH. exact H.
Qed.

Lemma ffill_from_filled : forall (xs : list fval) (prev : fval),
  is_nan prev = false ->
  Forall (fun x => is_nan x = false) (ffill_from prev xs).
Proof.
  induction xs as [|x xs IH]; intros prev H; cbn [ffill_from]; [constructor|].
  destruct (is_nan x) eqn:E; constructor; auto.
Qed.

Lemma ffill_from_last_filled : forall (xs : list fval) (prev : fval),
  Exists (fun x => is_nan x = false) xs ->
  is_nan (last (ffill_from prev xs) NaN) = false.
Proof.
  induction xs as [|x xs IH]; intros prev Hex; [inversion Hex|].
  cbn [ffill_from].
  set (v := if is_nan x then prev else x).
  inversion Hex as [? ? Hx|? ? Htl]; subst.
  - assert (Hv : is_nan v = false) by (unfold v; rewrite Hx; exact Hx).
    pose proof (@ffill_from_filled xs v Hv) as Hall.
    assert (Hin : In (last (v :: ffill_from v xs) NaN) (v :: ffill_from v xs))
      by (apply last_In; discriminate).
    destruct Hin as [<-|Hin]; [exact Hv|].
    rewrite Forall_forall in Hall. apply Hall. exact Hin.
  - specialize (IH v Htl).
    destruct xs as [|y ys]; [inversion Htl|]. exact IH.
Qed.

Lemma ffill_from_all_missing : forall (xs : list fval),
  Forall (fun x => is_nan x = true) xs -> ffill_from NaN xs = xs.
Proof.
  induction xs as [|x xs IH]; intro H; [reflexivity|].
  inversion H as [|? ? Hx Hxs]; subst. cbn [ffill_from]. rewrite Hx.
  destruct x; try discriminate. rewrite (IH Hxs). reflexivity.
Qed.

Lemma fill_filled (xs : list fval) :
  Exists (fun x => is_nan x = false) xs ->
  Forall (fun x => is_nan x = false) (bfill (ffill xs)).
Proof.
  intro Hex. unfold bfill, ffill. apply Forall_rev.
  set (ys := ffill_from NaN xs).
  assert (Hlast : is_nan (last ys NaN) = false)
    by (apply ffill_from_last_filled; exact Hex).
  assert (Hne : ys <> []) by (intro E; rewrite E in Hlast; discriminate).
  rewrite (app_removelast_last NaN Hne), rev_app_distr.
  cbn [rev app ffill_from]. rewrite Hlast.
  constructor; [exact Hlast|]. apply ffill_from_filled. exact Hlast.
Qed.

Lemma fill_keeps (xs : list fval) (i : nat) :
  (i < length xs)%nat ->
  is_nan (nth i xs NaN) = false ->
  nth i (bfill (ffill xs)) NaN = nth i xs NaN.
Proof.
  intros Hi Hx. unfold bfill, ffill.
  set (ys := ffill_from NaN xs).
  assert (Hlen : length ys = length xs) by apply length_ffill_from.
  assert (Hys : nth i ys NaN = nth i xs NaN) by (apply ffill_from_keeps; exact Hx).
  rewrite rev_nth by (rewrite length_ffill_from, length_rev; lia).
  rewrite length_ffill_from, length_rev, Hlen.
  assert (Hrev : nth (length xs - S i) (rev ys) NaN = nth i ys NaN).
  { rewrite rev_nth by lia. rewrite Hlen. f_equal. lia. }
  rewrite ffill_from_keeps; rewrite Hrev; congruence.
Qed.

(** X16: the fill of [clean_data], [ffill()] then [bfill()], on one column.
    It keeps the length, keeps every entry that was not missing where it
    was, leaves no missing entry as soon as the column has one value, and
    leaves a column with no value at all as it is. *)
Theorem fill_closes_every_gap :
  forall (xs : list fval),
    length (bfill (ffill xs)) = length xs /\
    (forall i, (i < length xs)%nat -> is_nan (nth i xs NaN) = false ->
               nth i (bfill (ffill xs)) NaN = nth i xs NaN) /\
    (Exists (fun x => is_nan x = false) xs ->
     Forall (fun x => is_nan x = false) (bfill (ffill xs))) /\
    (Forall (fun x => is_nan x = true) xs -> bfill (ffill xs) = xs).
Proof.
  intro xs. split; [|split; [|split]].
  - unfold bfill, ffill.
    rewrite length_rev, !length_ffill_from, length_rev, length_ffill_from.
    reflexivity.
  - intros i Hi Hx. apply fill_keeps; assumption.
  - apply fill_filled.
  - intro H. unfold bfill, ffill. rewrite (ffill_from_all_missing H).
    rewrite ffill_from_all_missing by (apply Forall_rev; exact H).
    apply rev_involutive.
Qed.

(** A gap at the start is filled from behind, one inside from before. *)
Example fill_on_a_column_with_gaps :
  bfill (ffill [NaN; Fin 1; NaN; Fin 2; NaN]) = [Fin 1; Fin 1; Fin 1; Fin 2; Fin 2].
Proof. reflexivity. Qed.

(** ** The JSON of an asset *)





(** An unknown name is a 404 and nothing else. *)
Example api_asset_data_unknown_name :
  api_asset_data [] "DOGE" = NotFound "Asset not found".
Proof. reflexivity. Qed.

(** ** A holdout with a gap *)

Lemma train_arima_body_Ok_holdout (L : libraries) df h s r s' :
  train_arima_body L df h s = (Ok r, s') ->
  forallb is_finite (skipn (split_point (length (closes df))) (closes df)) = true.
Proof.
  unfold train_arima_body.
  destruct (negb (HAS_ARIMA L)); [discriminate|]. cbv zeta.
  intro H. do 6 peel_bind H.
  match goal with
  | Hm : lift (calculate_metrics _ _ _) _ = (Ok _, _) |- _ =>
      apply lift_Ok in Hm; destruct Hm as [Hm _];
      apply calculate_metrics_Ok in Hm; destruct Hm as (_ & _ & Hfin & _)
  end.
  exact Hfin.
Qed.

(** X18: a close in the last 20% of the series that is NaN or infinite sends
    [train_arima] to its fallback, whatever statsmodels answers: sklearn
    rejects the holdout, so the forecast is the straight line, the metrics
    are zero and there is no model. *)
Theorem gap_in_the_holdout_sends_arima_to_the_fallback :
  forall (L : libraries) (df : frame) (h : nat) (s : trainer),
    Exists (fun x => is_finite x = false)
           (skipn (split_point (length (closes df))) (closes df)) ->
    exists c s',
      iloc_last (closes df) = Ok c /\
      train_arima L df h s
      = (Ok (np_linspace c (fmul c (Fin (105 # 100))) h, zero_metrics, None), s').
Proof.
  intros L df h s Hex.
  assert (Hne : closes df <> []).
  { intro E. rewrite E in Hex. destruct (split_point _); inversion Hex. }
  destruct (iloc_last_nonempty Hne) as [c Hc].
  destruct (train_arima_body L df h s) as [[r|e] s'] eqn:E.
  - apply train_arima_body_Ok_holdout in E.
    rewrite forallb_forall in E. apply Exists_exists in Hex as (x & Hin & Hx).
    rewrite (E x Hin) in Hx. discriminate.
  - exists c, s'. split; [exact Hc|].
    rewrite (train_arima_fallback _ _ _ _ E). apply fallback_Ok. exact Hc.
Qed.

Lemma gap_in_the_holdout_sends_arima_to_the_fallback_witness :
  exists c s',
    iloc_last (closes (ramp 9 ++ [ {| Date := 0; Close := PInf |} ])) = Ok c /\
    train_arima persistence_libs (ramp 9 ++ [ {| Date := 0; Close := PInf |} ])
                3 ModelTrainer_init
    = (Ok (np_linspace c (fmul c (Fin (105 # 100))) 3, zero_metrics, None), s').
Proof.
  apply (@gap_in_the_holdout_sends_arima_to_the_fallback
           persistence_libs (ramp 9 ++ [ {| Date := 0; Close := PInf |} ])
           3 ModelTrainer_init).
  vm_compute. apply Exists_cons_tl, Exists_cons_hd. reflexivity.
Defined.
